(** * DCF modelling: a shallow embedding of the projection and valuation code

    The development follows the Python sources:

    - [funcLibrary/array_arithmetic_v2.py]   ([array_arithmetic])
    - [funcLibrary/extend_array_function.py] ([extend_array])
    - [funcLibrary/apply_growth.py]          ([apply_growth])
    - [funcLibrary/delta_numpy.py]           ([delta_numpy])
    - [funcLibrary/dfcol2numpy.py]           ([list2numpy], [dfcol2numpy])
    - [dcf.py]                               (the orchestrating script, [run])

    Numbers.  Two models of a Python [float] / numpy [float64] are used.
    The structure of the script (which array reaches which step, lengths,
    failure and exception paths, the decision thresholds) is stated over
    exact rationals extended with the two infinities and the not-a-number
    sentinel; rounding, overflow and the sign of zero are not modelled
    there.  A statement about the digits of a computed value (the glide
    path, the sales forecast of the scenario) is made in the module
    [Binary64] instead, over the IEEE 754 binary64 numbers themselves.

    Results.  A library function either returns an array, returns [None]
    (the spec's Failure) or raises a Python exception. *)

From Stdlib Require Import QArith Qcanon Ascii String.
From Stdlib Require Floats.
From stdpp Require Import gmap strings list fin_maps.

Set Warnings "-inexact-float".

Open Scope Qc_scope.

(** * The embedding *)

(* ===================================================================== *)
(** ** Numbers *)
(* ===================================================================== *)

Inductive num : Type :=
| Finite (q : Qc)
| PInf
| NInf
| NaN.

#[global] Instance num_eq_dec : EqDecision num.
Proof. solve_decision. Defined.

#[global] Instance num_inhabited : Inhabited num := populate NaN.

Declare Scope num_scope.
Delimit Scope num_scope with num.
Bind Scope num_scope with num.

Definition of_Q (q : Q) : num := Finite (Q2Qc q).
Definition of_Z (z : Z) : num := Finite (Q2Qc (inject_Z z)).
Definition zero : num := Finite 0.
Definition one : num := Finite 1.

Definition nneg (x : num) : num :=
  match x with
  | Finite a => Finite (- a)
  | PInf => NInf
  | NInf => PInf
  | NaN => NaN
  end.

Definition nadd (x y : num) : num :=
  match x, y with
  | NaN, _ | _, NaN => NaN
  | Finite a, Finite b => Finite (a + b)
  | PInf, NInf | NInf, PInf => NaN
  | PInf, _ | _, PInf => PInf
  | NInf, _ | _, NInf => NInf
  end.

Definition nsub (x y : num) : num := nadd x (nneg y).

(** The infinity carrying the sign of a non-zero rational. *)
Definition inf_of_sign (a : Qc) : num :=
  if decide (a = 0) then NaN else if decide (0 < a) then PInf else NInf.

Definition nmul (x y : num) : num :=
  match x, y with
  | NaN, _ | _, NaN => NaN
  | Finite a, Finite b => Finite (a * b)
  | Finite a, PInf | PInf, Finite a => inf_of_sign a
  | Finite a, NInf | NInf, Finite a => nneg (inf_of_sign a)
  | PInf, PInf | NInf, NInf => PInf
  | PInf, NInf | NInf, PInf => NInf
  end.

(** IEEE division, as numpy performs it: a zero denominator gives an
    infinity (or NaN for 0/0), never an exception. *)
Definition ndiv (x y : num) : num :=
  match x, y with
  | NaN, _ | _, NaN => NaN
  | Finite a, Finite b =>
      if decide (b = 0) then inf_of_sign a else Finite (a / b)
  | Finite _, (PInf | NInf) => Finite 0
  | PInf, Finite b => if decide (0 <= b) then PInf else NInf
  | NInf, Finite b => if decide (0 <= b) then NInf else PInf
  | (PInf | NInf), (PInf | NInf) => NaN
  end.

Infix "+" := nadd : num_scope.
Infix "-" := nsub : num_scope.
Infix "*" := nmul : num_scope.
Infix "/" := ndiv : num_scope.

(** Comparisons: every comparison with NaN is false, except [!=]. *)
Definition nltb (x y : num) : bool :=
  match x, y with
  | NaN, _ | _, NaN => false
  | Finite a, Finite b => bool_decide (a < b)
  | NInf, (Finite _ | PInf) => true
  | Finite _, PInf => true
  | _, _ => false
  end.

Definition neqb (x y : num) : bool :=
  match x, y with
  | NaN, _ | _, NaN => false
  | _, _ => bool_decide (x = y)
  end.

Definition nneb (x y : num) : bool := negb (neqb x y).

Definition nleb (x y : num) : bool := nltb x y || neqb x y.

Definition is_nan (x : num) : bool :=
  match x with NaN => true | _ => false end.

Definition is_finite (x : num) : Prop :=
  match x with Finite _ => True | _ => False end.

Definition nabs (x : num) : num :=
  match x with
  | Finite a => Finite (if decide (a < 0) then - a else a)
  | PInf | NInf => PInf
  | NaN => NaN
  end.

(** [x ** n] for a non-negative integer exponent, by repeated
    multiplication; [npow x k * x = npow x (S k)] mirrors [np.cumprod]. *)
Fixpoint npow (x : num) (n : nat) : num :=
  match n with
  | O => one
  | S k => (npow x k * x)%num
  end.

(** Python's builtin [min(a, b)] and [max(a, b)]: the first argument is
    kept unless the second compares strictly better. *)
Definition py_min (a b : num) : num := if nltb b a then b else a.
Definition py_max (a b : num) : num := if nltb a b then b else a.

(* ===================================================================== *)
(** ** Results and Python values *)
(* ===================================================================== *)

Inductive exn : Type :=
| ZeroDivisionError
| TypeError
| ValueError
| IndexError
| KeyError
| OverflowError.

#[global] Instance exn_eq_dec : EqDecision exn.
Proof. solve_decision. Defined.

(** [Failure] is the [None] a library function returns after logging. *)
Inductive result (A : Type) : Type :=
| Ok (a : A)
| Failure
| Raised (e : exn).

Arguments Ok {A} a.
Arguments Failure {A}.
Arguments Raised {A} e.

#[global] Instance result_eq_dec {A} `{EqDecision A} : EqDecision (result A).
Proof. solve_decision. Defined.

(** A numpy array: its shape, whether its dtype is a number type
    ([np.issubdtype(dtype, np.number)]) and its elements in row-major
    order.  An array whose dtype is not a number type stands for an array
    of text ([str] or [bytes] elements); arrays of booleans, objects or
    dates are outside the model.  The elements of a text array are not
    numbers and are not modelled: its [data] holds placeholders, and
    statements about computed values are made for arrays of a number
    dtype.  [delta_numpy] tests the dtype; [apply_growth] does not, and
    numpy then refuses to add a number to text. *)
Record ndarray : Type := mk_ndarray {
  shape : list nat;
  is_number : bool;
  data : list num
}.

#[global] Instance ndarray_eq_dec : EqDecision ndarray.
Proof. solve_decision. Defined.

Definition ndim (a : ndarray) : nat := length (shape a).
Definition size (a : ndarray) : nat := foldr Nat.mul 1%nat (shape a).

(** The 1-dimensional float64 array holding the list [l]. *)
Definition array1 (l : list num) : ndarray :=
  {| shape := [length l]; is_number := true; data := l |}.

(** A 1-dimensional array of [n] strings, such as [np.array(["a", "b"])]. *)
Definition text_array (n : nat) : ndarray :=
  {| shape := [n]; is_number := false; data := replicate n NaN |}.

(** The Python values the validation code tells apart. *)
Inductive pyobj : Type :=
| PyNone
| PyNum (x : num)          (* an int or a float *)
| PyStr (s : string)
| PyArr (a : ndarray).

#[global] Instance pyobj_eq_dec : EqDecision pyobj.
Proof. solve_decision. Defined.

(** [isinstance(o, np.ndarray)] and [isinstance(o, (int, float))]. *)
Definition is_array (o : pyobj) : Prop :=
  match o with PyArr _ => True | _ => False end.

Definition is_numeric_value (o : pyobj) : Prop :=
  match o with PyNum _ => True | _ => False end.

(** An operand as the caller holds it: an array, or [None]. *)
Definition operand (a : option ndarray) : pyobj :=
  match a with
  | Some x => PyArr x
  | None => PyNone
  end.

(* ===================================================================== *)
(** ** array_arithmetic_v2.py *)
(* ===================================================================== *)

Definition ADD_LIST : list string := ["add"; "addition"; "sum"; "plus"; "+"].
Definition SUB_LIST : list string := ["subtract"; "sub"; "minus"; "-"].
Definition MULT_LIST : list string := ["multiply"; "times"; "*"].
Definition DIV_LIST : list string := ["divide"; "div"; "/"].

Definition OP_SET : gset string :=
  list_to_set ADD_LIST ∪ list_to_set SUB_LIST
  ∪ list_to_set MULT_LIST ∪ list_to_set DIV_LIST.

(** [str.lower()] on the ASCII letters. *)
Definition lower_ascii (c : ascii) : ascii :=
  let n := nat_of_ascii c in
  if bool_decide (65 <= n <= 90)%nat then ascii_of_nat (n + 32) else c.

Fixpoint lower (s : string) : string :=
  match s with
  | EmptyString => EmptyString
  | String c r => String (lower_ascii c) (lower r)
  end.

(** [np.divide(a, b, out=np.full_like(a, np.nan), where=(b != 0))] at one
    position. *)
Definition safe_div (a b : num) : num :=
  if nneb b zero then (a / b)%num else NaN.

(** A binary ufunc on two arrays of the same shape. *)
Definition ufunc2 (f : num -> num -> num) (a b : ndarray) : ndarray :=
  {| shape := shape a; is_number := is_number a && is_number b;
     data := zip_with f (data a) (data b) |}.

Definition array_arithmetic (arr1 arr2 operation : pyobj) : result ndarray :=
  (* 1. validate operation: [not operation or not isinstance(operation, str)] *)
  match operation with
  | PyArr o =>
      (* the truth value of an array with several elements is an error *)
      if bool_decide (1 < size o)%nat then Raised ValueError else Failure
  | PyNone | PyNum _ => Failure
  | PyStr s =>
      if bool_decide (s = "") then Failure else
      let op := lower s in
      (* 2. validate arrays *)
      match arr1, arr2 with
      | PyNone, _ | _, PyNone => Failure
      | PyArr a, PyArr b =>
          if bool_decide (shape a ≠ shape b) then Failure
          (* 3. validate operation string *)
          else if bool_decide (op ∉ OP_SET) then Failure
          else if bool_decide (op ∈ ADD_LIST) then Ok (ufunc2 nadd a b)
          else if bool_decide (op ∈ SUB_LIST) then Ok (ufunc2 nsub a b)
          else if bool_decide (op ∈ MULT_LIST) then Ok (ufunc2 nmul a b)
          else if bool_decide (op ∈ DIV_LIST) then Ok (ufunc2 safe_div a b)
          else Failure
      | _, _ => Failure
      end
  end.

(* ===================================================================== *)
(** ** extend_array_function.py *)
(* ===================================================================== *)

(** [np.nanmean]: the mean of the entries that are not NaN; NaN when there
    is none. *)
Definition nsum (l : list num) : num := foldl nadd zero l.

Definition nanmean (l : list num) : num :=
  let kept := filter (λ x, is_nan x = false) l in
  (nsum kept / of_Z (Z.of_nat (length kept)))%num.

(** Division of Python floats: a zero divisor raises.  [START_VALUE] and
    [END_VALUE] are Python floats, as the signature of [extend_array]
    declares them ([Optional[float]]). *)
Definition py_div (x y : num) : result num :=
  if neqb y zero then Raised ZeroDivisionError else Ok (x / y)%num.

(** [np.array(range(1, n + 1), dtype=float)] *)
Definition steps_upto (n : nat) : list num :=
  (λ k : nat, of_Z (Z.of_nat k)) <$> seq 1 n.

(** [arr[-1]] on a 1-dimensional array. *)
Definition last_item (l : list num) : result num :=
  match last l with
  | Some x => Ok x
  | None => Raised IndexError
  end.

Definition extend_array (arr : pyobj) (forecast_periods : Z)
    (method : option string) (STEP START_VALUE END_VALUE : option num)
    : result ndarray :=
  match arr with
  | PyArr a =>
      (* if method is invalid, return None *)
      if bool_decide (method ≠ None ∧ method ∉ [Some "average"; Some "last"])
      then Failure
      (* if input array is not 1D, return None *)
      else if bool_decide (ndim a ≠ 1%nat) then Failure
      (* if forecast_periods is negative, return None *)
      else if bool_decide (forecast_periods < 0)%Z then Failure
      else
        let finish (base_value step : num) : result ndarray :=
          let steps := steps_upto (Z.to_nat forecast_periods) in
          let extension := (λ k, base_value + k * step)%num <$> steps in
          Ok {| shape := [length (data a ++ extension)];
                is_number := is_number a;
                data := data a ++ extension |} in
        match START_VALUE, END_VALUE with
        | Some start_value, Some end_value =>
            (* Case 1: both start and end values provided *)
            match py_div (end_value - start_value)%num (of_Z forecast_periods) with
            | Ok step => finish start_value step
            | Failure => Failure
            | Raised e => Raised e
            end
        | _, _ =>
            (* Case 2: otherwise, base value and STEP *)
            let step := default zero STEP in
            if bool_decide (method = Some "average")
            then finish (nanmean (data a)) step
            else match last_item (data a) with
                 | Ok base_value => finish base_value step
                 | Failure => Failure
                 | Raised e => Raised e
                 end
        end
  | _ => Failure
  end.

(* ===================================================================== *)
(** ** apply_growth.py *)
(* ===================================================================== *)

(** [np.cumprod]: running products, left to right. *)
Fixpoint cumprod_from (acc : num) (l : list num) : list num :=
  match l with
  | [] => []
  | x :: t => let p := (acc * x)%num in p :: cumprod_from p t
  end.

Definition cumprod (l : list num) : list num :=
  match l with
  | [] => []
  | x :: t => x :: cumprod_from x t
  end.

Definition apply_growth (initial_value growth_rates : pyobj) : result ndarray :=
  match initial_value with
  | PyNum v0 =>
      match growth_rates with
      | PyArr g =>
          if bool_decide (size g = 0%nat) then Failure
          (* [1 + growth_rates] on text: numpy raises UFuncTypeError, a
             TypeError *)
          else if negb (is_number g) then Raised TypeError
          else
            (* multipliers = np.cumprod(1 + growth_rates) *)
            let multipliers := cumprod ((λ r, one + r)%num <$> data g) in
            (* np.concatenate(([initial_value], initial_value * multipliers)) *)
            Ok (array1 (v0 :: ((λ m, v0 * m)%num <$> multipliers)))
      | _ => Failure
      end
  | _ => Failure
  end.

(* ===================================================================== *)
(** ** delta_numpy.py *)
(* ===================================================================== *)

Definition delta_numpy (array : pyobj) (first_value : option num)
    : result ndarray :=
  match array with
  | PyNone => Failure
  | PyArr a =>
      if bool_decide (ndim a ≠ 1%nat) then Failure
      else if bool_decide (size a = 0%nat) then Failure
      else if negb (is_number a) then Failure
      else
        let l := data a in
        (* delta[0] = np.nan if first_value is None else 0.0 *)
        let d0 := match first_value with None => NaN | Some _ => zero end in
        (* delta[1:] = array[1:] - array[:-1] *)
        let rest := zip_with nsub (drop 1 l) (take (length l - 1) l) in
        Ok {| shape := shape a; is_number := true; data := d0 :: rest |}
  | _ => Failure
  end.

(* ===================================================================== *)
(** ** dfcol2numpy.py *)
(* ===================================================================== *)

(** A cell of a pandas column, as [tolist()] hands it over: a Python
    number (missing values are the float NaN) or text. *)
Inductive cell : Type :=
| CNum (x : num)
| CText (s : string).

#[global] Instance cell_eq_dec : EqDecision cell.
Proof. solve_decision. Defined.

(** A DataFrame: the length of its index and its named columns.  In a
    well-formed frame every column has one cell per row. *)
Record DataFrame : Type := mk_frame {
  nrows : nat;
  columns : gmap string (list cell)
}.

Definition wf_frame (df : DataFrame) : Prop :=
  map_Forall (λ _ col, length col = nrows df) (columns df).

(** [df.empty]: no rows or no columns. *)
Definition frame_empty (df : DataFrame) : bool :=
  bool_decide (nrows df = 0%nat) || bool_decide (columns df = ∅).

(** [df[name] = col] *)
Definition set_column (name : string) (col : list cell) (df : DataFrame)
    : DataFrame :=
  {| nrows := nrows df; columns := <[name := col]> (columns df) |}.

Definition cell_number (c : cell) : option num :=
  match c with
  | CNum x => Some x
  | CText _ => None
  end.

(** [list2numpy]: [None] for an empty list or a list with an item that is
    not an int or a float, else [np.array(list_seq, dtype=float)]. *)
Definition list2numpy (list_seq : list cell) : option ndarray :=
  if bool_decide (length list_seq = 0%nat) then None
  else array1 <$> mapM cell_number list_seq.

Definition is_space (c : ascii) : bool :=
  let n := nat_of_ascii c in
  bool_decide (n = 32 ∨ 9 ≤ n ≤ 13 ∨ 28 ≤ n ≤ 31)%nat.

(** [varname.strip() == ""] *)
Definition is_blank (s : string) : bool :=
  forallb is_space (list_ascii_of_string s).

Definition dfcol2numpy (varname : string) (df : DataFrame) : option ndarray :=
  if is_blank varname then None
  else if frame_empty df then None
  else match columns df !! varname with
       | None => None
       | Some list_seq => list2numpy list_seq
       end.

(* ===================================================================== *)
(** ** Library calls of the script: pandas and numpy *)
(* ===================================================================== *)

#[global] Instance result_ret : MRet result := λ A a, Ok a.
#[global] Instance result_bind : MBind result := λ A B f r,
  match r with
  | Ok a => f a
  | Failure => Failure
  | Raised e => Raised e
  end.

(** [Series.pct_change(periods=1)] on a column of numbers: the first
    period is missing, every later one is [x[i] / x[i-1] - 1].  Entries
    that are missing stay missing: whether pandas fills them forward first
    depends on its version, and the model takes the reading without a
    fill.  Text cannot be divided. *)
Definition pct_change (col : list cell) : result (list cell) :=
  match mapM cell_number col with
  | None => Raised TypeError
  | Some xs =>
      Ok (CNum <$> match xs with
                   | [] => []
                   | _ :: t => NaN :: zip_with (λ x p, x / p - one)%num t xs
                   end)
  end.

(** [np.isclose(a, b, rtol, atol)] at one position: NaN is close to
    nothing, an infinity only to itself. *)
Definition isclose (rtol atol a b : num) : bool :=
  match a, b with
  | Finite _, Finite _ => nleb (nabs (a - b)) (atol + rtol * nabs b)%num
  | _, _ => neqb a b
  end.

(** [np.allclose] on 1-dimensional arrays: arrays of different lengths
    broadcast only when one of them has a single element. *)
Definition allclose (rtol atol : num) (a b : option ndarray) : result bool :=
  match a, b with
  | Some x, Some y =>
      let la := data x in
      let lb := data y in
      if bool_decide (length la = length lb)
      then Ok (forallb id (zip_with (isclose rtol atol) la lb))
      else match la, lb with
           | [u], _ => Ok (forallb (isclose rtol atol u) lb)
           | _, [v] => Ok (forallb (λ u, isclose rtol atol u v) la)
           | _, _ => Raised ValueError
           end
  | _, _ => Raised TypeError
  end.

(** The tolerance of the consistency checks, [1e-5]. *)
Definition tol : num := of_Q (1 # 100000).

(** An [Optional[np.ndarray]] returned by [array_arithmetic]: the value
    the script binds, [None] included; an exception ends the run. *)
Definition arith (a b : option ndarray) (op : string)
    : result (option ndarray) :=
  match array_arithmetic (operand a) (operand b) (PyStr op) with
  | Ok r => Ok (Some r)
  | Failure => Ok None
  | Raised e => Raised e
  end.

(** [if x is None: logger.error(...); sys.exit()].  In the script,
    [Failure] is the run stopped by [sys.exit()]. *)
Definition check {A} (x : option A) : result A :=
  match x with
  | Some a => Ok a
  | None => Failure
  end.

(** [x / 100.0] for an optional array: dividing [None] is a TypeError. *)
Definition scale (f : num → num) (a : ndarray) : ndarray :=
  {| shape := shape a; is_number := is_number a; data := f <$> data a |}.

Definition percent (x : option ndarray) : result ndarray :=
  match x with
  | Some a => Ok (scale (λ v, v / of_Z 100)%num a)
  | None => Raised TypeError
  end.

(** [float(np.nanmean(x))]; the mean of [None] is a TypeError. *)
Definition nanmean_of (x : option ndarray) : result num :=
  match x with
  | Some a => Ok (nanmean (data a))
  | None => Raised TypeError
  end.

(** [x[-1]] and [x[0]]; [None] is not subscriptable. *)
Definition item_last (x : option ndarray) : result num :=
  match x with
  | Some a => last_item (data a)
  | None => Raised TypeError
  end.

Definition item_first (a : ndarray) : result num :=
  match data a with
  | x :: _ => Ok x
  | [] => Raised IndexError
  end.

(** [x[i:]] on a 1-dimensional array; a negative [i] counts from the end. *)
Definition slice_from (i : Z) (a : ndarray) : ndarray :=
  let n := Z.of_nat (length (data a)) in
  let start := if bool_decide (i < 0)%Z then Z.max 0 (n + i) else i in
  array1 (drop (Z.to_nat start) (data a)).

(** [np.full(n, v)]; a negative length is a ValueError. *)
Definition np_full (n : Z) (v : num) : result ndarray :=
  if bool_decide (n < 0)%Z then Raised ValueError
  else Ok (array1 (replicate (Z.to_nat n) v)).

(** [x ** n] on Python floats. *)
Definition py_pow (x : num) (n : Z) : result num :=
  if bool_decide (0 ≤ n)%Z then Ok (npow x (Z.to_nat n))
  else py_div one (npow x (Z.to_nat (- n))).

(* ===================================================================== *)
(** ** dcf.py: configuration and variable names *)
(* ===================================================================== *)

Record Config : Type := mk_config {
  N_HISTORICAL_YEARS : Z;
  N_FORECAST_YEARS : Z;
  TERMINAL_GROWTH_RATE : num;
  TERMINAL_COGS_MARGIN_RATE : num;
  TERMINAL_SGA_MARGIN_RATE : num;
  TERMINAL_RD_MARGIN_RATE : num;
  TERMINAL_DEPR_TO_CAPEX_RATE : num;
  WACC : num;
  BUY_SELL_THRESHOLD : num
}.

(** The constants of the script. *)
Definition default_config : Config :=
  {| N_HISTORICAL_YEARS := 5;
     N_FORECAST_YEARS := 5;
     TERMINAL_GROWTH_RATE := of_Q (3 # 100);
     TERMINAL_COGS_MARGIN_RATE := of_Q (60 # 100);
     TERMINAL_SGA_MARGIN_RATE := of_Q (30 # 100);
     TERMINAL_RD_MARGIN_RATE := of_Q (10 # 100);
     TERMINAL_DEPR_TO_CAPEX_RATE := of_Q 1;
     WACC := of_Q (1016 # 10000);
     BUY_SELL_THRESHOLD := of_Q (8 # 100) |}.

Definition SALES_VAR : string := "SALES_REV_TURN".
Definition COGS_VAR : string := "IS_COG_AND_SERVICES_SOLD".
Definition GROSS_PROFIT_VAR : string := "GROSS_PROFIT".
Definition OTHER_OPER_INC_VAR : string := "IS_OTHER_OPER_INC".
Definition OPER_EXP_VAR : string := "IS_OPERATING_EXPN".
Definition SGA_EXP_VAR : string := "IS_SGA_EXPENSE".
Definition RD_EXP_VAR : string := "IS_OPERATING_EXPENSES_RD".
Definition OTHER_OPER_EXP_VAR : string := "IS_OTHER_OPERATING_EXPENSES".
Definition OPER_INC_VAR : string := "IS_OPER_INC".
Definition PRETAX_INC : string := "PRETAX_INC".
Definition TAX_EXP_VAR : string := "IS_INC_TAX_EXP".
Definition EFFECTIVE_TAX_RATE_VAR : string := "EFF_TAX_RATE".
Definition CAPEX_VAR : string := "CAPITAL_EXPEND".
Definition CAPEX_TO_SALES_VAR : string := "CAP_EXPEND_TO_SALES".
Definition EBITDA_VAR : string := "EBITDA".
Definition EBITA_VAR : string := "EBITA".
Definition DEPRECIATION_EXPENSE_VAR : string := "IS_DEPR_EXP".
Definition TOTAL_CURRENT_ASSETS_VAR : string := "BS_CUR_ASSET_REPORT".
Definition TOTAL_CURRENT_LIABILITIES_VAR : string := "BS_CUR_LIAB".
Definition SHORT_TERM_DEBT : string := "BS_ST_BORROW".
Definition SHORT_TERM_PORTION_OF_LONG_TERM_DEBT : string :=
  "BS_CURR_PORTION_LT_DEBT".
Definition LONG_TERM_DEBT : string := "BS_LT_BORROW".
Definition PREFERRED_EQUITY : string := "PFD_EQTY_HYBRID_CAPITAL".
Definition MINORITY_INTEREST : string := "MINORITY_NONCONTROLLING_INTEREST".
Definition CASH_AND_EQUIVALENTS : string := "CASH_CASH_EQTY_STI_DETAILED".
Definition N_SHARES_OUTSTANDING : string := "BS_SH_OUT".
Definition SALES_GROWTH : string := "sales_growth".

(* ===================================================================== *)
(** ** dcf.py, STEP 2 and STEP 3: the historical arrays *)
(* ===================================================================== *)

(** [dcf_actuals.loc[:, "sales_growth"] = dcf_actuals[SALES_VAR].pct_change(periods=1)];
    a missing sales column is a KeyError. *)
Definition step2 (dcf_actuals : DataFrame) : result DataFrame :=
  match columns dcf_actuals !! SALES_VAR with
  | None => Raised KeyError
  | Some sales =>
      growth ← pct_change sales;
      Ok (set_column SALES_GROWTH growth dcf_actuals)
  end.

Record Historical : Type := mk_historical {
  sales_arr : ndarray;
  sales_growth_arr : option ndarray;
  cogs_arr : option ndarray;
  gp_arr : option ndarray;
  other_oper_inc_arr : option ndarray;
  other_oper_exp_arr : option ndarray;
  sga_exp_arr : option ndarray;
  rd_exp_arr : option ndarray;
  oper_exp_arr : option ndarray;
  oper_inc_arr : option ndarray;
  pretax_inc_arr : option ndarray;
  tax_exp_arr : option ndarray;
  effective_tax_rate_arr : ndarray;
  capital_expenditure_arr : option ndarray;
  ebitda_arr : option ndarray;
  ebita_arr : option ndarray;
  depreciation_arr : option ndarray;
  amortization_arr : option ndarray;
  total_current_assets_arr : option ndarray;
  total_current_liabilities_arr : option ndarray;
  working_capital_arr : option ndarray;
  st_debt_arr : option ndarray;
  stlt_debt_arr : option ndarray;
  lt_debt_arr : option ndarray;
  total_debt_arr : option ndarray;
  preferred_equity_arr : option ndarray;
  minority_interest_arr : option ndarray;
  cash_and_equivalents_arr : option ndarray;
  shares_out_arr : option ndarray
}.

Definition step3 (dcf_actuals : DataFrame) : result Historical :=
  let col name := dfcol2numpy name dcf_actuals in
  sales ← check (col SALES_VAR);
  effective_tax_rate ← percent (col EFFECTIVE_TAX_RATE_VAR);
  amortization ← arith (col EBITA_VAR) (col OPER_INC_VAR) "subtract";
  working_capital ←
    arith (col TOTAL_CURRENT_ASSETS_VAR) (col TOTAL_CURRENT_LIABILITIES_VAR)
      "subtract";
  lt_debts ←
    arith (col SHORT_TERM_PORTION_OF_LONG_TERM_DEBT) (col LONG_TERM_DEBT) "add";
  total_debt ← arith (col SHORT_TERM_DEBT) lt_debts "add";
  Ok {| sales_arr := sales;
        sales_growth_arr := col SALES_GROWTH;
        cogs_arr := col COGS_VAR;
        gp_arr := col GROSS_PROFIT_VAR;
        other_oper_inc_arr := col OTHER_OPER_INC_VAR;
        other_oper_exp_arr := col OTHER_OPER_EXP_VAR;
        sga_exp_arr := col SGA_EXP_VAR;
        rd_exp_arr := col RD_EXP_VAR;
        oper_exp_arr := col OPER_EXP_VAR;
        oper_inc_arr := col OPER_INC_VAR;
        pretax_inc_arr := col PRETAX_INC;
        tax_exp_arr := col TAX_EXP_VAR;
        effective_tax_rate_arr := effective_tax_rate;
        capital_expenditure_arr := col CAPEX_VAR;
        ebitda_arr := col EBITDA_VAR;
        ebita_arr := col EBITA_VAR;
        depreciation_arr := col DEPRECIATION_EXPENSE_VAR;
        amortization_arr := amortization;
        total_current_assets_arr := col TOTAL_CURRENT_ASSETS_VAR;
        total_current_liabilities_arr := col TOTAL_CURRENT_LIABILITIES_VAR;
        working_capital_arr := working_capital;
        st_debt_arr := col SHORT_TERM_DEBT;
        stlt_debt_arr := col SHORT_TERM_PORTION_OF_LONG_TERM_DEBT;
        lt_debt_arr := col LONG_TERM_DEBT;
        total_debt_arr := total_debt;
        preferred_equity_arr := col PREFERRED_EQUITY;
        minority_interest_arr := col MINORITY_INTEREST;
        cash_and_equivalents_arr := col CASH_AND_EQUIVALENTS;
        shares_out_arr := col N_SHARES_OUTSTANDING |}.

(* ===================================================================== *)
(** ** dcf.py, STEP 4: check constructed variables *)
(* ===================================================================== *)

Record Checks : Type := mk_checks {
  calculated_gross_profit_arr : ndarray;
  check_gross_margin_arr : bool;
  calculated_oper_exp_arr : ndarray;
  check_oper_exp_arr : bool;
  calculated_oper_inc_arr : ndarray;
  check_oper_inc_arr : bool;
  calculated_effective_tax_rate_arr : ndarray;
  check_effective_tax_rate_arr : bool;
  calculated_depreciation_arr : ndarray;
  check_depreciation_arr : bool
}.

Definition step4 (h : Historical) : result Checks :=
  (* gross profit check: SALES - COGS *)
  calculated_gross_profit ←
    arith (Some (sales_arr h)) (cogs_arr h) "subtract" ≫= check;
  check_gross_margin ← allclose tol tol (gp_arr h) (Some calculated_gross_profit);
  (* operating expense check: SG&A + R&D + Misc Expenses *)
  sga_rd ← arith (sga_exp_arr h) (rd_exp_arr h) "add";
  calculated_oper_exp ← arith sga_rd (other_oper_exp_arr h) "add" ≫= check;
  check_oper_exp ← allclose tol tol (oper_exp_arr h) (Some calculated_oper_exp);
  (* operating income check: GROSS PROFIT + Other Income - Operating Expense *)
  inc_less_exp ← arith (other_oper_inc_arr h) (oper_exp_arr h) "subtract";
  calculated_oper_inc ← arith (gp_arr h) inc_less_exp "add" ≫= check;
  check_oper_inc ← allclose tol tol (oper_inc_arr h) (Some calculated_oper_inc);
  (* effective tax rate check *)
  calculated_effective_tax_rate ←
    arith (tax_exp_arr h) (pretax_inc_arr h) "divide" ≫= check;
  check_effective_tax_rate ←
    allclose tol tol (Some (effective_tax_rate_arr h))
      (Some calculated_effective_tax_rate);
  (* depreciation check *)
  calculated_depreciation ←
    arith (ebitda_arr h) (ebita_arr h) "subtract" ≫= check;
  check_depreciation ←
    allclose tol tol (depreciation_arr h) (Some calculated_depreciation);
  Ok {| calculated_gross_profit_arr := calculated_gross_profit;
        check_gross_margin_arr := check_gross_margin;
        calculated_oper_exp_arr := calculated_oper_exp;
        check_oper_exp_arr := check_oper_exp;
        calculated_oper_inc_arr := calculated_oper_inc;
        check_oper_inc_arr := check_oper_inc;
        calculated_effective_tax_rate_arr := calculated_effective_tax_rate;
        check_effective_tax_rate_arr := check_effective_tax_rate;
        calculated_depreciation_arr := calculated_depreciation;
        check_depreciation_arr := check_depreciation |}.

(* ===================================================================== *)
(** ** dcf.py, STEP 5: margin arrays *)
(* ===================================================================== *)

Record Margins : Type := mk_margins {
  cogs_margin_arr : ndarray;
  other_oper_inc_margin_arr : ndarray;
  other_oper_exp_margin_arr : ndarray;
  sga_margin_arr : ndarray;
  rd_margin_arr : ndarray;
  capex_margin_arr : ndarray;
  depr_capex_arr : ndarray;
  amortization_margin_arr : ndarray;
  working_capital_margin_arr : ndarray
}.

Definition step5 (dcf_actuals : DataFrame) (h : Historical) : result Margins :=
  let sales := Some (sales_arr h) in
  cogs_margin ← arith (cogs_arr h) sales "divide" ≫= check;
  other_oper_inc_margin ← arith (other_oper_inc_arr h) sales "divide" ≫= check;
  other_oper_exp_margin ← arith (other_oper_exp_arr h) sales "divide" ≫= check;
  sga_margin ← arith (sga_exp_arr h) sales "divide" ≫= check;
  rd_margin ← arith (rd_exp_arr h) sales "divide" ≫= check;
  capex_margin ← percent (dfcol2numpy CAPEX_TO_SALES_VAR dcf_actuals);
  capex ← arith (Some capex_margin) sales "multiply";
  depr_capex ← arith (depreciation_arr h) capex "divide" ≫= check;
  amortization_margin ← arith (amortization_arr h) sales "divide" ≫= check;
  working_capital_margin ←
    arith (working_capital_arr h) sales "divide" ≫= check;
  Ok {| cogs_margin_arr := cogs_margin;
        other_oper_inc_margin_arr := other_oper_inc_margin;
        other_oper_exp_margin_arr := other_oper_exp_margin;
        sga_margin_arr := sga_margin;
        rd_margin_arr := rd_margin;
        capex_margin_arr := capex_margin;
        depr_capex_arr := depr_capex;
        amortization_margin_arr := amortization_margin;
        working_capital_margin_arr := working_capital_margin |}.

(* ===================================================================== *)
(** ** dcf.py, STEP 6: projections using extend_array() *)
(* ===================================================================== *)

(** Every driver is extended in glide mode:
    [extend_array(arr, N_FORECAST_YEARS, method=None, STEP=None,
                  START_VALUE=start, END_VALUE=end)]. *)
Definition glide (cfg : Config) (arr : option ndarray) (start_value end_value : num)
    : result ndarray :=
  extend_array (operand arr) (N_FORECAST_YEARS cfg) None None
    (Some start_value) (Some end_value).

Record Drivers : Type := mk_drivers {
  sales_growth_arr_extended : ndarray;
  cogs_margin_arr_extended : ndarray;
  other_oper_inc_margin_arr_extended : ndarray;
  sga_margin_arr_extended : ndarray;
  rd_margin_arr_extended : ndarray;
  other_oper_exp_margin_arr_extended : ndarray;
  effective_tax_rate_arr_extended : ndarray;
  capex_margin_arr_extended : ndarray;
  depr_capex_arr_extended : ndarray;
  amortization_margin_arr_extended : ndarray;
  working_capital_margin_arr_extended : ndarray
}.

(** Sales growth: from the historical mean to the terminal growth rate. *)
Definition extend_sales_growth (cfg : Config) (sales_growth : option ndarray)
    : result ndarray :=
  start ← nanmean_of sales_growth;
  glide cfg sales_growth start (TERMINAL_GROWTH_RATE cfg).

(** Effective tax rate: the recomputed series, flat at its last value. *)
Definition extend_effective_tax_rate (cfg : Config)
    (calculated_effective_tax_rate : ndarray) : result ndarray :=
  start ← item_last (Some calculated_effective_tax_rate);
  end_value ← item_last (Some calculated_effective_tax_rate);
  glide cfg (Some calculated_effective_tax_rate) start end_value.

Definition step6 (cfg : Config) (h : Historical) (c : Checks) (m : Margins)
    : result Drivers :=
  sales_growth ← extend_sales_growth cfg (sales_growth_arr h);
  (* COGS margin: historical mean, to min(mean, terminal) *)
  cogs_mean ← nanmean_of (Some (cogs_margin_arr m));
  cogs ← glide cfg (Some (cogs_margin_arr m)) cogs_mean
            (py_min cogs_mean (TERMINAL_COGS_MARGIN_RATE cfg));
  (* other operating income margin: last value, to zero *)
  other_inc_last ← item_last (Some (other_oper_inc_margin_arr m));
  other_inc ← glide cfg (Some (other_oper_inc_margin_arr m)) other_inc_last zero;
  (* SG&A margin: last value, to min(mean, terminal) *)
  sga_last ← item_last (Some (sga_margin_arr m));
  sga_mean ← nanmean_of (Some (sga_margin_arr m));
  sga ← glide cfg (Some (sga_margin_arr m)) sga_last
           (py_min sga_mean (TERMINAL_SGA_MARGIN_RATE cfg));
  (* R&D margin: last value, to max(mean, terminal) *)
  rd_last ← item_last (Some (rd_margin_arr m));
  rd_mean ← nanmean_of (Some (rd_margin_arr m));
  rd ← glide cfg (Some (rd_margin_arr m)) rd_last
          (py_max rd_mean (TERMINAL_RD_MARGIN_RATE cfg));
  (* other operating expense margin: last value, to zero *)
  other_exp_last ← item_last (Some (other_oper_exp_margin_arr m));
  other_exp ← glide cfg (Some (other_oper_exp_margin_arr m)) other_exp_last zero;
  (* effective tax rate *)
  tax ← extend_effective_tax_rate cfg (calculated_effective_tax_rate_arr c);
  (* capex margin: flat at the historical mean *)
  capex_mean ← nanmean_of (Some (capex_margin_arr m));
  capex ← glide cfg (Some (capex_margin_arr m)) capex_mean capex_mean;
  (* depreciation to capex: last value, to the terminal rate *)
  depr_last ← item_last (Some (depr_capex_arr m));
  depr ← glide cfg (Some (depr_capex_arr m)) depr_last
            (TERMINAL_DEPR_TO_CAPEX_RATE cfg);
  (* amortization margin: flat at the historical mean *)
  amort_mean ← nanmean_of (Some (amortization_margin_arr m));
  amort ← glide cfg (Some (amortization_margin_arr m)) amort_mean amort_mean;
  (* working capital margin: flat at the historical mean *)
  wc_mean ← nanmean_of (Some (working_capital_margin_arr m));
  wc ← glide cfg (Some (working_capital_margin_arr m)) wc_mean wc_mean;
  Ok {| sales_growth_arr_extended := sales_growth;
        cogs_margin_arr_extended := cogs;
        other_oper_inc_margin_arr_extended := other_inc;
        sga_margin_arr_extended := sga;
        rd_margin_arr_extended := rd;
        other_oper_exp_margin_arr_extended := other_exp;
        effective_tax_rate_arr_extended := tax;
        capex_margin_arr_extended := capex;
        depr_capex_arr_extended := depr;
        amortization_margin_arr_extended := amort;
        working_capital_margin_arr_extended := wc |}.

(* ===================================================================== *)
(** ** dcf.py, STEP 7: forecast lines *)
(* ===================================================================== *)

(** [apply_growth(initial_value=sales_arr[0],
                  growth_rates=sales_growth_arr_extended[1:])] *)
Definition sales_forecast (sales : ndarray) (sales_growth_extended : ndarray)
    : result ndarray :=
  initial_value ← item_first sales;
  apply_growth (PyNum initial_value)
    (PyArr (slice_from 1 sales_growth_extended)).

Record Forecast : Type := mk_forecast {
  sales_forecast_arr : ndarray;
  cogs_forecast_arr : ndarray;
  gross_profit_forecast_arr : ndarray;
  other_oper_inc_forecast_arr : ndarray;
  sga_forecast_arr : ndarray;
  rd_forecast_arr : ndarray;
  other_oper_exp_forecast_arr : ndarray;
  oper_exp_forecast_arr : ndarray;
  ebit_forecast_arr : ndarray;
  nopat_forecast_arr : ndarray;
  capex_forecast_arr : ndarray;
  depreciation_forecast_arr : ndarray;
  amortization_forecast_arr : ndarray;
  working_capital_forecast_arr : ndarray;
  change_in_working_capital_forecast_arr : ndarray
}.

Definition step7 (h : Historical) (d : Drivers) : result Forecast :=
  let times (a b : ndarray) := arith (Some a) (Some b) "multiply" ≫= check in
  sales ← sales_forecast (sales_arr h) (sales_growth_arr_extended d);
  cogs ← times sales (cogs_margin_arr_extended d);
  gross_profit ← arith (Some sales) (Some cogs) "subtract" ≫= check;
  other_oper_inc ← times sales (other_oper_inc_margin_arr_extended d);
  sga ← times sales (sga_margin_arr_extended d);
  rd ← times sales (rd_margin_arr_extended d);
  other_oper_exp ← times sales (other_oper_exp_margin_arr_extended d);
  sga_rd ← arith (Some sga) (Some rd) "add";
  oper_exp ← arith sga_rd (Some other_oper_exp) "add" ≫= check;
  inc_less_exp ← arith (Some other_oper_inc) (Some oper_exp) "subtract";
  ebit ← arith (Some gross_profit) inc_less_exp "add" ≫= check;
  (* NOPAT = EBIT * (1 - effective_tax_rate_arr_extended) *)
  nopat ← times ebit
            (scale (λ t, one - t)%num (effective_tax_rate_arr_extended d));
  capex ← times sales (capex_margin_arr_extended d);
  depreciation ← times capex (depr_capex_arr_extended d);
  amortization ← times sales (amortization_margin_arr_extended d);
  working_capital ← times sales (working_capital_margin_arr_extended d);
  change_in_working_capital ← delta_numpy (PyArr working_capital) (Some zero);
  Ok {| sales_forecast_arr := sales;
        cogs_forecast_arr := cogs;
        gross_profit_forecast_arr := gross_profit;
        other_oper_inc_forecast_arr := other_oper_inc;
        sga_forecast_arr := sga;
        rd_forecast_arr := rd;
        other_oper_exp_forecast_arr := other_oper_exp;
        oper_exp_forecast_arr := oper_exp;
        ebit_forecast_arr := ebit;
        nopat_forecast_arr := nopat;
        capex_forecast_arr := capex;
        depreciation_forecast_arr := depreciation;
        amortization_forecast_arr := amortization;
        working_capital_forecast_arr := working_capital;
        change_in_working_capital_forecast_arr := change_in_working_capital |}.

(* ===================================================================== *)
(** ** dcf.py, STEP 8 to STEP 11: free cash flow and valuation *)
(* ===================================================================== *)

(** FCF = NOPAT + depreciation + amortization - capex - change in working
    capital, over the historical and the projected years. *)
Definition fcf_full (f : Forecast) : result ndarray :=
  non_cash ←
    arith (Some (depreciation_forecast_arr f))
      (Some (amortization_forecast_arr f)) "add";
  with_non_cash ← arith (Some (nopat_forecast_arr f)) non_cash "add";
  less_capex ← arith with_non_cash (Some (capex_forecast_arr f)) "subtract";
  arith less_capex (Some (change_in_working_capital_forecast_arr f))
    "subtract" ≫= check.

(** [fcf_forecast_arr[N_HISTORICAL_YEARS-1:]]: the current and the
    projected years only. *)
Definition step8 (cfg : Config) (f : Forecast) : result ndarray :=
  fcf ← fcf_full f;
  Ok (slice_from (N_HISTORICAL_YEARS cfg - 1) fcf).

Record Valuation : Type := mk_valuation {
  wacc_arr : option ndarray;
  pv_forecasted_fcf_arr : ndarray;
  pv_forecasted_fcf_sum : num;
  terminal_value : num;
  pv_terminal_value : num;
  enterprise_value : num;
  equity_value : num;
  share_value : num
}.

(** The discount factors: [apply_growth(1.0, np.full(N_FORECAST_YEARS, WACC))]. *)
Definition discount_factors (cfg : Config) : result (option ndarray) :=
  wacc_constant_arr ← np_full (N_FORECAST_YEARS cfg) (WACC cfg);
  match apply_growth (PyNum one) (PyArr wacc_constant_arr) with
  | Ok r => Ok (Some r)
  | Failure => Ok None
  | Raised e => Raised e
  end.

Definition step9 (cfg : Config) (h : Historical) (fcf_forecast : ndarray)
    : result Valuation :=
  wacc ← discount_factors cfg;
  (* STEP 9: present value of forecasted FCF *)
  pv_arr ← arith (Some fcf_forecast) wacc "divide" ≫= check;
  let pv_sum := nsum (data pv_arr) in
  (* Terminal Value = Last FCF * (1 + g) / (wacc - g) *)
  fcf_last ← item_last (Some fcf_forecast);
  let tv :=
    ((fcf_last * (one + TERMINAL_GROWTH_RATE cfg))
     / (WACC cfg - TERMINAL_GROWTH_RATE cfg))%num in
  discount ← py_pow (one + WACC cfg)%num (N_FORECAST_YEARS cfg);
  pv_tv ← py_div tv discount;
  (* STEP 10: enterprise value *)
  let ev := (pv_sum + pv_tv)%num in
  (* STEP 11: equity value *)
  debt ← item_last (total_debt_arr h);
  preferred ← item_last (preferred_equity_arr h);
  minority ← item_last (minority_interest_arr h);
  cash ← item_last (cash_and_equivalents_arr h);
  let equity := (ev - debt - preferred - minority + cash)%num in
  shares ← item_last (shares_out_arr h);
  Ok {| wacc_arr := wacc;
        pv_forecasted_fcf_arr := pv_arr;
        pv_forecasted_fcf_sum := pv_sum;
        terminal_value := tv;
        pv_terminal_value := pv_tv;
        enterprise_value := ev;
        equity_value := equity;
        share_value := (equity / shares)%num |}.

(* ===================================================================== *)
(** ** dcf.py, STEP 12: decision *)
(* ===================================================================== *)

Inductive Decision : Type := SELL | BUY | HOLD.

#[global] Instance Decision_eq_dec : EqDecision Decision.
Proof. solve_decision. Defined.

(** A statement of the script's tail either lets the script go on or ends
    it with [sys.exit()]; it logs the decisions it issues. *)
Inductive flow : Type := GoOn | SysExit.

Definition stmt : Type := list Decision * flow.

Definition then_ (s1 s2 : stmt) : stmt :=
  match s1 with
  | (l1, SysExit) => (l1, SysExit)
  | (l1, GoOn) => (l1 ++ s2.1, s2.2)
  end.

Definition when (b : bool) (s : stmt) : stmt := if b then s else ([], GoOn).

Definition decide_trade (threshold value price : num) : stmt :=
  let is_sell := nltb value ((one - threshold) * price)%num in
  let is_buy := nltb value ((one + threshold) * price)%num in
  then_ (when is_sell ([SELL], SysExit))
    (then_ (when is_buy ([BUY], SysExit))
       ([HOLD], GoOn)).

(* ===================================================================== *)
(** ** dcf.py: the run *)
(* ===================================================================== *)

Record Run : Type := mk_run {
  historical : Historical;
  checks : Checks;
  margins : Margins;
  drivers : Drivers;
  forecast : Forecast;
  fcf_forecast_arr : ndarray;
  valuation : Valuation;
  decisions : list Decision
}.

(** The script from the windowed frame [dcf_actuals] on; [price] is what
    the quote source answers. *)
Definition run (cfg : Config) (price : num) (dcf_actuals : DataFrame)
    : result Run :=
  df ← step2 dcf_actuals;
  h ← step3 df;
  c ← step4 h;
  m ← step5 df h;
  d ← step6 cfg h c m;
  f ← step7 h d;
  fcf ← step8 cfg f;
  v ← step9 cfg h fcf;
  Ok {| historical := h;
        checks := c;
        margins := m;
        drivers := d;
        forecast := f;
        fcf_forecast_arr := fcf;
        valuation := v;
        decisions :=
          (decide_trade (BUY_SELL_THRESHOLD cfg) (share_value v) price).1 |}.

(* ===================================================================== *)
(** ** The library functions on binary64 numbers *)
(* ===================================================================== *)

(** The definitions above compute with exact numbers.  A value that
    depends on rounding is computed here instead: the same functions, from
    the same sources, over Rocq's primitive floats, which are the IEEE 754
    binary64 numbers of Python's [float] and numpy's [float64], with
    round-to-nearest-even.  The arrays of this module are float64 arrays. *)
Module Binary64.

Import PrimFloat.
#[local] Open Scope float_scope.

(** [float(n)] for a Python int: the nearest double, ties to even. *)
Definition of_Z (z : Z) : float :=
  FloatOps.SF2Prim
    (SpecFloat.binary_normalize FloatOps.prec FloatOps.emax z 0 false).

(** A float64 array: its shape and its elements in row-major order. *)
Record ndarray : Type := mk_ndarray {
  shape : list nat;
  data : list float
}.

Definition ndim (a : ndarray) : nat := length (shape a).
Definition size (a : ndarray) : nat := foldr Nat.mul 1%nat (shape a).

Definition array1 (l : list float) : ndarray :=
  {| shape := [length l]; data := l |}.

Inductive pyobj : Type :=
| PyNone
| PyNum (x : float)
| PyStr (s : string)
| PyArr (a : ndarray).

(** [np.add.reduce] on a float64 array is numpy's pairwise summation:
    fewer than 8 elements are added from left to right, starting from
    [0.]; up to 128 elements are added into eight running sums that are
    then combined in pairs, the elements past the last full group of eight
    being added one by one; a longer array is cut in two near its middle,
    at a multiple of eight. *)
Definition sum_from (acc : float) (l : list float) : float :=
  foldl PrimFloat.add acc l.

Fixpoint add_groups (groups : nat) (r l : list float)
    : list float * list float :=
  match groups with
  | O => (r, l)
  | S g => add_groups g (zip_with PrimFloat.add r (take 8 l)) (drop 8 l)
  end.

Definition sum_block (l : list float) : float :=
  let (r, rest) := add_groups (length l / 8 - 1)%nat (take 8 l) (drop 8 l) in
  match r with
  | [r0; r1; r2; r3; r4; r5; r6; r7] =>
      sum_from (((r0 + r1) + (r2 + r3)) + ((r4 + r5) + (r6 + r7))) rest
  | _ => sum_from 0 l
  end.

Fixpoint pairwise_sum (fuel : nat) (l : list float) : float :=
  let n := length l in
  if (n <? 8)%nat then sum_from 0 l
  else if (n <=? 128)%nat then sum_block l
  else match fuel with
       | O => sum_block l
       | S f =>
           let n2 := (n / 2 - (n / 2) mod 8)%nat in
           pairwise_sum f (take n2 l) + pairwise_sum f (drop n2 l)
       end.

Definition np_sum (l : list float) : float := pairwise_sum (length l) l.

(** [np.nanmean]: the NaN entries are replaced by [0.], the array is
    summed and the sum divided by the number of entries that were not
    NaN. *)
Definition nanmean (l : list float) : float :=
  let total := np_sum ((λ x, if PrimFloat.is_nan x then 0 else x) <$> l) in
  let count := length (filter (λ x, PrimFloat.is_nan x = false) l) in
  total / of_Z (Z.of_nat count).

(** Division of a Python float by a Python int: a zero divisor raises, and
    so does an int too large to be converted to a float. *)
Definition py_div (x : float) (n : Z) : result float :=
  if bool_decide (n = 0%Z) then Raised ZeroDivisionError
  else if is_infinity (of_Z n) then Raised OverflowError
  else Ok (x / of_Z n).

(** [np.array(range(1, n + 1), dtype=float)] *)
Definition steps_upto (n : nat) : list float :=
  (λ k : nat, of_Z (Z.of_nat k)) <$> seq 1 n.

Definition last_item (l : list float) : result float :=
  match last l with
  | Some x => Ok x
  | None => Raised IndexError
  end.

Definition extend_array (arr : pyobj) (forecast_periods : Z)
    (method : option string) (STEP START_VALUE END_VALUE : option float)
    : result ndarray :=
  match arr with
  | PyArr a =>
      (* if method is invalid, return None *)
      if bool_decide (method ≠ None ∧ method ∉ [Some "average"; Some "last"])
      then Failure
      (* if input array is not 1D, return None *)
      else if bool_decide (ndim a ≠ 1%nat) then Failure
      (* if forecast_periods is negative, return None *)
      else if bool_decide (forecast_periods < 0)%Z then Failure
      else
        let finish (base_value step : float) : result ndarray :=
          let steps := steps_upto (Z.to_nat forecast_periods) in
          (* extension = base_value + steps * STEP *)
          let extension := (λ k, base_value + k * step) <$> steps in
          Ok {| shape := [length (data a ++ extension)];
                data := data a ++ extension |} in
        match START_VALUE, END_VALUE with
        | Some start_value, Some end_value =>
            (* Case 1: both start and end values provided *)
            match py_div (end_value - start_value) forecast_periods with
            | Ok step => finish start_value step
            | Failure => Failure
            | Raised e => Raised e
            end
        | _, _ =>
            (* Case 2: otherwise, base value and STEP *)
            let step := default 0 STEP in
            if bool_decide (method = Some "average")
            then finish (nanmean (data a)) step
            else match last_item (data a) with
                 | Ok base_value => finish base_value step
                 | Failure => Failure
                 | Raised e => Raised e
                 end
        end
  | _ => Failure
  end.

(** [np.cumprod]: running products, left to right. *)
Fixpoint cumprod_from (acc : float) (l : list float) : list float :=
  match l with
  | [] => []
  | x :: t => let p := acc * x in p :: cumprod_from p t
  end.

Definition cumprod (l : list float) : list float :=
  match l with
  | [] => []
  | x :: t => x :: cumprod_from x t
  end.

Definition apply_growth (initial_value growth_rates : pyobj) : result ndarray :=
  match initial_value with
  | PyNum v0 =>
      match growth_rates with
      | PyArr g =>
          if bool_decide (size g = 0%nat) then Failure
          else
            (* multipliers = np.cumprod(1 + growth_rates) *)
            let multipliers := cumprod ((λ r, 1 + r) <$> data g) in
            (* np.concatenate(([initial_value], initial_value * multipliers)) *)
            Ok (array1 (v0 :: ((λ m, v0 * m) <$> multipliers)))
      | _ => Failure
      end
  | _ => Failure
  end.

(** The cells of a column, the frame and the conversion of a column. *)
Inductive cell : Type :=
| CNum (x : float)
| CText (s : string).

Record DataFrame : Type := mk_frame {
  nrows : nat;
  columns : gmap string (list cell)
}.

Definition wf_frame (df : DataFrame) : Prop :=
  map_Forall (λ _ col, length col = nrows df) (columns df).

Definition frame_empty (df : DataFrame) : bool :=
  bool_decide (nrows df = 0%nat) || bool_decide (columns df = ∅).

Definition set_column (name : string) (col : list cell) (df : DataFrame)
    : DataFrame :=
  {| nrows := nrows df; columns := <[name := col]> (columns df) |}.

Definition cell_number (c : cell) : option float :=
  match c with
  | CNum x => Some x
  | CText _ => None
  end.

Definition list2numpy (list_seq : list cell) : option ndarray :=
  if bool_decide (length list_seq = 0%nat) then None
  else array1 <$> mapM cell_number list_seq.

Definition dfcol2numpy (varname : string) (df : DataFrame) : option ndarray :=
  if is_blank varname then None
  else if frame_empty df then None
  else match columns df !! varname with
       | None => None
       | Some list_seq => list2numpy list_seq
       end.

(** [Series.pct_change(periods=1)]: [x[i] / x[i-1] - 1], the first entry
    missing. *)
Definition pct_change (col : list cell) : result (list cell) :=
  match mapM cell_number col with
  | None => Raised TypeError
  | Some xs =>
      Ok (CNum <$> match xs with
                   | [] => []
                   | _ :: t => nan :: zip_with (λ x p, x / p - 1) t xs
                   end)
  end.

Definition step2 (dcf_actuals : DataFrame) : result DataFrame :=
  match columns dcf_actuals !! SALES_VAR with
  | None => Raised KeyError
  | Some sales =>
      growth ← pct_change sales;
      Ok (set_column SALES_GROWTH growth dcf_actuals)
  end.

Definition operand (a : option ndarray) : pyobj :=
  match a with
  | Some x => PyArr x
  | None => PyNone
  end.

(** [float(np.nanmean(x))]; the mean of [None] is a TypeError. *)
Definition nanmean_of (x : option ndarray) : result float :=
  match x with
  | Some a => Ok (nanmean (data a))
  | None => Raised TypeError
  end.

(** The sales growth projection of STEP 6. *)
Definition extend_sales_growth (N_FORECAST_YEARS : Z)
    (TERMINAL_GROWTH_RATE : float) (sales_growth : option ndarray)
    : result ndarray :=
  start ← nanmean_of sales_growth;
  extend_array (operand sales_growth) N_FORECAST_YEARS None None
    (Some start) (Some TERMINAL_GROWTH_RATE).

Definition item_first (a : ndarray) : result float :=
  match data a with
  | x :: _ => Ok x
  | [] => Raised IndexError
  end.

(** [apply_growth(initial_value=sales_arr[0],
                  growth_rates=sales_growth_arr_extended[1:])] *)
Definition sales_forecast (sales : ndarray) (sales_growth_extended : ndarray)
    : result ndarray :=
  initial_value ← item_first sales;
  apply_growth (PyNum initial_value)
    (PyArr (array1 (drop 1 (data sales_growth_extended)))).

End Binary64.

(* ********************************************************************* *)
(** * Properties *)
(* ********************************************************************* *)

(* ===================================================================== *)
(** ** Facts about numbers *)
(* ===================================================================== *)

Lemma nmul_one_l (x : num) : (one * x)%num = x.
Proof.
  destruct x as [q| | |]; simpl; try reflexivity.
  f_equal. ring.
Qed.

Lemma nmul_one_r (x : num) : (x * one)%num = x.
Proof.
  destruct x as [q| | |]; simpl; try reflexivity.
  f_equal. ring.
Qed.

Lemma neqb_zero_iff (x : num) : neqb x zero = true ↔ x = zero.
Proof.
  destruct x as [q| | |]; simpl; rewrite ?bool_decide_eq_true; split;
    first [done | congruence].
Qed.

#[global] Arguments nadd : simpl never.
#[global] Arguments nsub : simpl never.
#[global] Arguments nmul : simpl never.
#[global] Arguments ndiv : simpl never.

(* ===================================================================== *)
(** ** Elementwise arithmetic *)
(* ===================================================================== *)

(** The function an operation name stands for, once lower-cased. *)
Definition op_fun (op : string) : num -> num -> num :=
  if bool_decide (op ∈ ADD_LIST) then nadd
  else if bool_decide (op ∈ SUB_LIST) then nsub
  else if bool_decide (op ∈ MULT_LIST) then nmul
  else safe_div.

Lemma OP_SET_elem (op : string) :
  op ∈ OP_SET ↔ op ∈ ADD_LIST ++ SUB_LIST ++ MULT_LIST ++ DIV_LIST.
Proof.
  unfold OP_SET. rewrite !elem_of_union, !elem_of_list_to_set, !elem_of_app.
  tauto.
Qed.

Lemma array_arithmetic_dispatch (a b : ndarray) (s : string) :
  shape a = shape b →
  lower s ∈ OP_SET →
  array_arithmetic (PyArr a) (PyArr b) (PyStr s)
  = Ok (ufunc2 (op_fun (lower s)) a b).
Proof.
  intros Hsh Hop. unfold array_arithmetic, op_fun.
  assert (Hne : s ≠ "").
  { intros ->. vm_compute in Hop. revert Hop. vm_compute. done. }
  rewrite (bool_decide_eq_false_2 _ Hne).
  rewrite (bool_decide_eq_false_2 (shape a ≠ shape b)) by tauto.
  rewrite (bool_decide_eq_false_2 (lower s ∉ OP_SET)) by tauto.
  apply OP_SET_elem in Hop.
  repeat case_bool_decide; try reflexivity.
  rewrite !elem_of_app in Hop. tauto.
Qed.

Lemma zip_with_lookup_total (f : num → num → num) (la lb : list num) (i : nat) :
  (i < length la)%nat → length la = length lb →
  zip_with f la lb !!! i = f (la !!! i) (lb !!! i).
Proof.
  intros Hi Hlen.
  destruct (lookup_lt_is_Some_2 la i Hi) as [x Hx].
  destruct (lookup_lt_is_Some_2 lb i ltac:(lia)) as [y Hy].
  rewrite (list_lookup_total_correct _ _ _ Hx).
  rewrite (list_lookup_total_correct _ _ _ Hy).
  apply list_lookup_total_correct.
  rewrite lookup_zip_with, Hx. simpl. rewrite Hy. reflexivity.
Qed.

(** [r] is an array holding [f a[i] b[i]] at every position [i]. *)
Definition elementwise (f : num → num → num) (la lb : list num)
    (r : result ndarray) : Prop :=
  ∃ a, r = Ok a ∧ shape a = [length la] ∧ length (data a) = length la ∧
       ∀ i, (i < length la)%nat → data a !!! i = f (la !!! i) (lb !!! i).

(** The quotient the spec asks of [divide]: the sentinel where the
    denominator is zero, the quotient elsewhere. *)
Definition div_or_nan (x y : num) : num :=
  if neqb y zero then NaN else (x / y)%num.

Lemma safe_div_spec (x y : num) : safe_div x y = div_or_nan x y.
Proof. unfold safe_div, div_or_nan, nneb. destruct (neqb y zero); done. Qed.

Lemma array_arithmetic_elementwise (la lb : list num) (s : string) :
  length la = length lb →
  lower s ∈ OP_SET →
  elementwise (op_fun (lower s)) la lb
    (array_arithmetic (PyArr (array1 la)) (PyArr (array1 lb)) (PyStr s)).
Proof.
  intros Hlen Hop.
  rewrite array_arithmetic_dispatch; [| simpl; congruence | done].
  eexists. split; [reflexivity|]. simpl.
  split; [done|]. split.
  - rewrite length_zip_with. lia.
  - intros i Hi. by apply zip_with_lookup_total.
Qed.

(** C3. For equal-length 1-dimensional numeric arrays, add, subtract and
    multiply return the array of the position-wise sums, differences and
    products; divide returns the sentinel NaN at every position whose
    denominator is zero and the quotient at every other position.  In each
    case an array is returned: no Failure and no exception. *)
Theorem combine_elementwise (la lb : list num) :
  length la = length lb →
  let a := PyArr (array1 la) in
  let b := PyArr (array1 lb) in
  elementwise nadd la lb (array_arithmetic a b (PyStr "add"))
  ∧ elementwise nsub la lb (array_arithmetic a b (PyStr "subtract"))
  ∧ elementwise nmul la lb (array_arithmetic a b (PyStr "multiply"))
  ∧ elementwise div_or_nan la lb (array_arithmetic a b (PyStr "divide")).
Proof.
  intros Hlen a b. subst a b.
  repeat split.
  - by apply (array_arithmetic_elementwise la lb "add").
  - by apply (array_arithmetic_elementwise la lb "subtract").
  - by apply (array_arithmetic_elementwise la lb "multiply").
  - pose proof (array_arithmetic_elementwise la lb "divide" Hlen) as H.
    destruct H as (r & Hr & Hs & Hl & Hi); [done|].
    exists r. repeat split; try done.
    intros i Hlt. rewrite (Hi i Hlt). apply safe_div_spec.
Qed.

Lemma combine_elementwise_witness :
  let la := [of_Q 3; of_Q 5] in
  let lb := [of_Q 0; of_Q 2] in
  elementwise div_or_nan la lb
    (array_arithmetic (PyArr (array1 la)) (PyArr (array1 lb)) (PyStr "divide")).
Proof.
  intros la lb.
  exact (proj2 (proj2 (proj2 (combine_elementwise la lb eq_refl)))).
Defined.

(* ===================================================================== *)
(** ** Failure conditions of the arithmetic *)
(* ===================================================================== *)

Definition numeric_operand (a : option ndarray) : Prop :=
  match a with
  | Some x => is_number x = true
  | None => True
  end.

(** The three failure conditions: a null operand, differing shapes, an
    operation whose lower-cased name is not in the synonym table. *)
Definition combine_fails (a b : option ndarray) (s : string) : Prop :=
  a = None ∨ b = None
  ∨ (∃ x y, a = Some x ∧ b = Some y ∧ shape x ≠ shape y)
  ∨ lower s ∉ OP_SET.

Lemma array_arithmetic_failure (a b : option ndarray) (s : string) :
  combine_fails a b s →
  array_arithmetic (operand a) (operand b) (PyStr s) = Failure.
Proof.
  intros H. unfold array_arithmetic.
  case_bool_decide as Hs; [done|].
  destruct a as [x|], b as [y|]; simpl; try done.
  case_bool_decide as Hsh; [done|].
  case_bool_decide as Hop; [done|].
  exfalso. destruct H as [H|[H|[(x' & y' & Hx & Hy & Hne)|H]]];
    try discriminate; [| tauto].
  injection Hx as <-. injection Hy as <-. tauto.
Qed.

Lemma array_arithmetic_result (a b : option ndarray) (s : string) :
  ¬ combine_fails a b s →
  ∃ r, array_arithmetic (operand a) (operand b) (PyStr s) = Ok r.
Proof.
  intros H. unfold combine_fails in H.
  destruct a as [x|]; [| tauto]. destruct b as [y|]; [| tauto].
  destruct (decide (shape x = shape y)) as [Hsh|Hsh];
    [| exfalso; apply H; right; right; left; eauto].
  destruct (decide (lower s ∈ OP_SET)) as [Hop|Hop]; [| tauto].
  eexists. simpl. by apply array_arithmetic_dispatch.
Qed.

(** C6. [combine(a, b, op)] returns Failure (the function returns [None]:
    no array, no exception) whenever an operand is null, the operands'
    shapes differ (in particular when two 1-dimensional operands differ in
    length), or the lower-cased operation is not in the synonym table; every
    call on numeric operands meeting none of these conditions returns an
    array. *)
Theorem combine_failure_conditions (a b : option ndarray) (s : string) :
  numeric_operand a → numeric_operand b →
  let call := array_arithmetic (operand a) (operand b) (PyStr s) in
  (combine_fails a b s → call = Failure)
  ∧ (¬ combine_fails a b s → ∃ r, call = Ok r)
  ∧ (∀ la lb, a = Some (array1 la) → b = Some (array1 lb) →
       length la ≠ length lb → call = Failure).
Proof.
  intros _ _ call. subst call. split; [| split].
  - apply array_arithmetic_failure.
  - apply array_arithmetic_result.
  - intros la lb -> -> Hlen. apply array_arithmetic_failure.
    right; right; left. exists (array1 la), (array1 lb).
    repeat split. simpl. congruence.
Qed.

Lemma combine_failure_conditions_witness :
  let a := Some (array1 [of_Q 1; of_Q 2]) in
  let b := Some (array1 [of_Q 3]) in
  array_arithmetic (operand a) (operand b) (PyStr "ADD") = Failure
  ∧ ∃ r, array_arithmetic (operand a) (operand a) (PyStr "Plus") = Ok r.
Proof.
  intros a b. split.
  - refine (proj2 (proj2 (combine_failure_conditions a b "ADD" eq_refl eq_refl))
              _ _ eq_refl eq_refl _).
    simpl. lia.
  - refine (proj1 (proj2 (combine_failure_conditions a a "Plus" eq_refl eq_refl)) _).
    unfold combine_fails. intros [H|[H|[(x & y & Hx & Hy & Hne)|H]]].
    + discriminate.
    + discriminate.
    + injection Hx as <-. injection Hy as <-. by apply Hne.
    + apply H. by vm_compute.
Defined.

(** The two guards of the source that the spec does not list: an
    operation that is not a string, and an operand that is neither an array
    nor [None], also make the function return [None]. *)
Lemma array_arithmetic_other_guards (a b : pyobj) :
  (∀ x : num, array_arithmetic a b (PyNum x) = Failure)
  ∧ array_arithmetic a b PyNone = Failure
  ∧ (∀ s : string, ¬ is_array a ∨ ¬ is_array b →
       array_arithmetic a b (PyStr s) = Failure).
Proof.
  repeat split; try done.
  intros s H. unfold array_arithmetic. case_bool_decide; [done|].
  destruct a, b; simpl in *; try done. tauto.
Qed.

(* ===================================================================== *)
(** ** Growth compounding *)
(* ===================================================================== *)

(** The product of a list, multiplied up from the left as [np.cumprod]
    does. *)
Definition nprod (l : list num) : num := foldl nmul one l.

Lemma cumprod_from_length (acc : num) (l : list num) :
  length (cumprod_from acc l) = length l.
Proof. revert acc. induction l as [|x t IH]; intros acc; simpl; auto. Qed.

Lemma cumprod_length (l : list num) : length (cumprod l) = length l.
Proof. destruct l; simpl; [done|]. by rewrite cumprod_from_length. Qed.

Lemma cumprod_from_lookup (acc : num) (l : list num) (k : nat) :
  (k < length l)%nat →
  cumprod_from acc l !! k = Some (foldl nmul acc (take (S k) l)).
Proof.
  revert acc k. induction l as [|x t IH]; intros acc k Hk; simpl in *; [lia|].
  destruct k as [|k]; simpl.
  - by destruct t.
  - apply IH. lia.
Qed.

Lemma cumprod_lookup (l : list num) (k : nat) :
  (k < length l)%nat → cumprod l !! k = Some (nprod (take (S k) l)).
Proof.
  destruct l as [|x t]; simpl; [lia|]. intros Hk. unfold nprod.
  destruct k as [|k]; simpl.
  - destruct t; simpl; by rewrite nmul_one_l.
  - rewrite nmul_one_l. apply cumprod_from_lookup. lia.
Qed.

(** The growth factors [1 + r]. *)
Definition factors (rs : list num) : list num := (λ r, one + r)%num <$> rs.

Lemma apply_growth_lookup (v0 : num) (rs : list num) (k : nat) :
  (k ≤ length rs)%nat →
  (v0 :: ((λ m, v0 * m)%num <$> cumprod (factors rs))) !! k
  = Some (v0 * nprod (take k (factors rs)))%num.
Proof.
  intros Hk. destruct k as [|k]; simpl.
  - unfold nprod. simpl. by rewrite nmul_one_r.
  - rewrite list_lookup_fmap, cumprod_lookup; [done|].
    unfold factors. rewrite length_fmap. lia.
Qed.


(** C7, as the code has it.  For a numeric initial value [v0] and a
    non-empty numeric sequence of growth rates [r1 .. rn], [apply_growth]
    returns a sequence of length [n + 1] whose element 0 is [v0] and whose
    element [k] is [v0 * Π (1 + ri)] over [i = 1 .. k].  It returns Failure
    when the growth rates are empty, when they are not an array at all, and
    when the initial value is not a number.  A non-empty array that is not
    of a number dtype is not rejected: [1 + growth_rates] raises a
    TypeError. *)
Theorem compound_growth (v0 : num) (rs : list num) :
  rs ≠ [] →
  (∃ r, apply_growth (PyNum v0) (PyArr (array1 rs)) = Ok r
        ∧ ndim r = 1%nat
        ∧ length (data r) = S (length rs)
        ∧ data r !! 0%nat = Some v0
        ∧ ∀ k, (k ≤ length rs)%nat →
            data r !! k = Some (v0 * nprod (take k (factors rs)))%num)
  ∧ (∀ g, size g = 0%nat → apply_growth (PyNum v0) (PyArr g) = Failure)
  ∧ (∀ o, ¬ is_array o → apply_growth (PyNum v0) o = Failure)
  ∧ (∀ x o, ¬ is_numeric_value x → apply_growth x o = Failure)
  ∧ (∀ g, size g ≠ 0%nat → is_number g = false →
          apply_growth (PyNum v0) (PyArr g) = Raised TypeError).
Proof.
  intros Hne. repeat split.
  - unfold apply_growth.
    rewrite bool_decide_eq_false_2.
    2:{ destruct rs; [done | unfold size, array1; simpl; lia]. }
    eexists. split; [reflexivity|]. simpl.
    split; [done|]. split; [| split; [done|]].
    + by rewrite length_fmap, cumprod_length, length_fmap.
    + intros k Hk. by apply apply_growth_lookup.
  - intros g Hg. unfold apply_growth. by rewrite bool_decide_eq_true_2.
  - intros [ |x|s|a] Ho; simpl in *; tauto.
  - intros [ |x|s|a] o Hx; simpl in *; tauto.
  - intros g Hg Ht. unfold apply_growth.
    by rewrite (bool_decide_eq_false_2 _ Hg), Ht.
Qed.

Lemma compound_growth_witness :
  ∃ r, apply_growth (PyNum (of_Q 100))
         (PyArr (array1 [of_Q (1 # 10); of_Q (1 # 5)])) = Ok r
       ∧ data r !! 2%nat
         = Some (of_Q 100
                 * nprod (take 2 (factors [of_Q (1 # 10); of_Q (1 # 5)])))%num.
Proof.
  destruct (compound_growth (of_Q 100) [of_Q (1 # 10); of_Q (1 # 5)])
    as [(r & Hr & _ & _ & _ & Hk) _]; [done|].
  exists r. split; [exact Hr|]. apply Hk. simpl. lia.
Defined.

(** C7 as stated fails for growth rates that are an array of text: the
    function has no test of the dtype (its sibling [delta_numpy] has one),
    so the call does not return [None] but stops with a TypeError.  An
    empty array of text is still answered with [None]. *)
Lemma compound_growth_counterexample :
  apply_growth (PyNum (of_Q 100)) (PyArr (text_array 2)) = Raised TypeError
  ∧ apply_growth (PyNum (of_Q 100)) (PyArr (text_array 0)) = Failure
  ∧ delta_numpy (PyArr (text_array 2)) None = Failure.
Proof. repeat split. Qed.

(* ===================================================================== *)
(** ** First differences *)
(* ===================================================================== *)

Lemma differences_lookup (l : list num) (i : nat) (x y : num) :
  l !! i = Some x → l !! S i = Some y →
  zip_with nsub (drop 1 l) (take (length l - 1) l) !! i = Some (y - x)%num.
Proof.
  intros Hx Hy.
  pose proof (lookup_lt_Some _ _ _ Hy) as Hlt.
  rewrite lookup_zip_with, lookup_drop. simpl. rewrite Hy. simpl.
  rewrite lookup_take_lt by lia. rewrite Hx. reflexivity.
Qed.

(** The value stored at position 0: the sentinel without an anchor, 0.0
    with one, whatever the anchor is. *)
Definition first_delta (anchor : option num) : num :=
  match anchor with
  | None => NaN
  | Some _ => zero
  end.

(** C8. For a non-empty 1-dimensional numeric series, [delta] returns a
    sequence of the same length whose position 0 is the sentinel NaN when no
    anchor is given and 0.0 when an anchor is given (the anchor's own value
    is never stored), and whose position [i >= 1] is
    [series[i] - series[i-1]].  It returns Failure on an input that is not
    1-dimensional, is empty, or is not numeric. *)
Theorem delta_first_differences (l : list num) (anchor : option num) :
  l ≠ [] →
  (∃ r, delta_numpy (PyArr (array1 l)) anchor = Ok r
        ∧ shape r = [length l]
        ∧ length (data r) = length l
        ∧ data r !! 0%nat = Some (first_delta anchor)
        ∧ ∀ i x y, l !! i = Some x → l !! S i = Some y →
            data r !! S i = Some (y - x)%num)
  ∧ (∀ a, ndim a ≠ 1%nat → delta_numpy (PyArr a) anchor = Failure)
  ∧ (∀ a, size a = 0%nat → delta_numpy (PyArr a) anchor = Failure)
  ∧ (∀ a, is_number a = false → delta_numpy (PyArr a) anchor = Failure)
  ∧ (∀ o, ¬ is_array o → delta_numpy o anchor = Failure).
Proof.
  intros Hne. repeat split.
  - unfold delta_numpy.
    rewrite (bool_decide_eq_false_2 (ndim (array1 l) ≠ 1%nat)) by (cbn; lia).
    rewrite bool_decide_eq_false_2.
    2:{ destruct l; [done | unfold size, array1; simpl; lia]. }
    simpl. eexists. split; [reflexivity|]. simpl.
    split; [done|]. split; [| split; [by destruct anchor|]].
    + rewrite length_zip_with, length_drop, length_take.
      destruct l; [done | simpl; lia].
    + intros i x y Hx Hy. by apply differences_lookup.
  - intros a Ha. unfold delta_numpy. by rewrite bool_decide_eq_true_2.
  - intros a Ha. unfold delta_numpy. case_bool_decide; [done|].
    by rewrite bool_decide_eq_true_2.
  - intros a Ha. unfold delta_numpy. repeat case_bool_decide; try done.
    by rewrite Ha.
  - intros [ |x|s|a] Ho; simpl in *; tauto.
Qed.

Lemma delta_first_differences_witness :
  ∃ r, delta_numpy (PyArr (array1 [of_Q 5; of_Q 7; of_Q 4])) (Some (of_Q 9))
       = Ok r
       ∧ data r !! 0%nat = Some zero
       ∧ data r !! 2%nat = Some (of_Q 4 - of_Q 7)%num.
Proof.
  destruct (delta_first_differences [of_Q 5; of_Q 7; of_Q 4] (Some (of_Q 9)))
    as [(r & Hr & _ & _ & H0 & Hi) _]; [done|].
  exists r. split; [exact Hr|]. split; [exact H0|].
  by apply (Hi 1%nat).
Defined.

(* ===================================================================== *)
(** ** Series extrapolation *)
(* ===================================================================== *)

Lemma of_Z_eq_zero (z : Z) : Q2Qc (inject_Z z) = 0 → z = 0%Z.
Proof.
  intros H. apply Q2Qc_eq_iff in H. unfold Qeq in H. simpl in H. lia.
Qed.

Lemma of_Z_pos (z : Z) : (0 < z)%Z → 0 < Q2Qc (inject_Z z).
Proof.
  intros Hz. unfold Qclt. simpl. rewrite (Qred_correct (inject_Z z)).
  unfold Qlt. simpl. lia.
Qed.

Lemma py_div_of_Z (x : num) (z : Z) :
  z ≠ 0%Z → py_div x (of_Z z) = Ok (x / of_Z z)%num.
Proof.
  intros Hz. unfold py_div.
  destruct (neqb (of_Z z) zero) eqn:E; [| done].
  apply neqb_zero_iff in E. exfalso. apply Hz, of_Z_eq_zero.
  unfold of_Z, zero in E. congruence.
Qed.

Lemma nadd_zero_r (x : num) : (x + zero)%num = x.
Proof.
  destruct x as [q| | |]; unfold nadd, zero; try reflexivity.
  f_equal. ring.
Qed.

Lemma nmul_finite_zero (q : Qc) : (Finite q * zero)%num = zero.
Proof. unfold nmul, zero. f_equal. ring. Qed.

Lemma steps_upto_lookup (n k : nat) :
  (1 ≤ k ≤ n)%nat → steps_upto n !! (k - 1)%nat = Some (of_Z (Z.of_nat k)).
Proof.
  intros Hk. unfold steps_upto.
  rewrite list_lookup_fmap, lookup_seq_lt by lia. simpl.
  do 3 f_equal. lia.
Qed.

Lemma steps_upto_length (n : nat) : length (steps_upto n) = n.
Proof. unfold steps_upto. by rewrite length_fmap, length_seq. Qed.

Definition valid_method (m : option string) : Prop :=
  m = None ∨ m = Some "average" ∨ m = Some "last".

Lemma valid_method_check (m : option string) :
  valid_method m →
  bool_decide (m ≠ None ∧ m ∉ [Some "average"; Some "last"]) = false.
Proof.
  intros [-> | [-> | ->]]; apply bool_decide_eq_false_2; intros [H1 H2];
    [done | |]; apply H2; set_solver.
Qed.

Lemma extend_array_glide_eq (l : list num) (horizon : Z) (m : option string)
    (step : option num) (s e : num) :
  valid_method m → (1 ≤ horizon)%Z →
  extend_array (PyArr (array1 l)) horizon m step (Some s) (Some e)
  = Ok (array1 (l ++ ((λ k, s + k * ((e - s) / of_Z horizon))%num
                        <$> steps_upto (Z.to_nat horizon)))).
Proof.
  intros Hm Hh. unfold extend_array.
  rewrite (valid_method_check m Hm).
  rewrite (bool_decide_eq_false_2 (ndim (array1 l) ≠ 1%nat)) by (cbn; lia).
  rewrite (bool_decide_eq_false_2 (horizon < 0)%Z) by lia.
  rewrite py_div_of_Z by lia. reflexivity.
Qed.

Section Glide.
Import PrimFloat.
#[local] Open Scope float_scope.

Lemma steps_upto_lookup_binary64 (n k : nat) :
  (1 ≤ k ≤ n)%nat →
  Binary64.steps_upto n !! (k - 1)%nat = Some (Binary64.of_Z (Z.of_nat k)).
Proof.
  intros Hk. unfold Binary64.steps_upto.
  rewrite list_lookup_fmap, lookup_seq_lt by lia. simpl.
  do 3 f_equal. lia.
Qed.

Lemma steps_upto_length_binary64 (n : nat) :
  length (Binary64.steps_upto n) = n.
Proof. unfold Binary64.steps_upto. by rewrite length_fmap, length_seq. Qed.

(** C2, as the code has it, in binary64.  With a start value [S] and an
    end value [E], a method that is absent, ['average'] or ['last'], and a
    horizon of at least one period that Python can convert to a float,
    [extend_array] returns (no Failure, no exception) a 1-dimensional sequence of length
    [len(history) + horizon] that keeps the history as its prefix and whose
    [k]-th appended element is [S + k*STEP] for [k = 1..horizon], where
    [STEP = (E - S) / horizon] is computed once and every operation rounds.
    Nothing is said of the last element being [E]: it is [S + horizon*STEP],
    which rounding can leave beside [E]. *)
Theorem extend_glide (l : list float) (horizon : Z) (m : option string)
    (step : option float) (s e : float) :
  valid_method m → (1 ≤ horizon)%Z →
  is_infinity (Binary64.of_Z horizon) = false →
  let STEP := (e - s) / Binary64.of_Z horizon in
  ∃ r, Binary64.extend_array (Binary64.PyArr (Binary64.array1 l)) horizon m
         step (Some s) (Some e) = Ok r
       ∧ Binary64.ndim r = 1%nat
       ∧ length (Binary64.data r) = (length l + Z.to_nat horizon)%nat
       ∧ take (length l) (Binary64.data r) = l
       ∧ (∀ k, (1 ≤ k ≤ Z.to_nat horizon)%nat →
            Binary64.data r !! (length l + k - 1)%nat
            = Some (s + Binary64.of_Z (Z.of_nat k) * STEP)).
Proof.
  intros Hm Hh Hfin STEP. unfold Binary64.extend_array.
  rewrite (valid_method_check m Hm).
  rewrite (bool_decide_eq_false_2 (Binary64.ndim (Binary64.array1 l) ≠ 1%nat))
    by (cbn; lia).
  rewrite (bool_decide_eq_false_2 (horizon < 0)%Z) by lia.
  unfold Binary64.py_div.
  rewrite (bool_decide_eq_false_2 (horizon = 0%Z)) by lia. rewrite Hfin.
  eexists. split; [reflexivity|]. cbn [Binary64.data Binary64.array1].
  split; [done|]. split; [| split].
  - by rewrite length_app, length_fmap, steps_upto_length_binary64.
  - by rewrite take_app_length.
  - intros k Hk. rewrite lookup_app_r by lia.
    replace (length l + k - 1 - length l)%nat with (k - 1)%nat by lia.
    by rewrite list_lookup_fmap, steps_upto_lookup_binary64.
Qed.

Lemma extend_glide_witness :
  ∃ r, Binary64.extend_array (Binary64.PyArr (Binary64.array1 [0.1; 0.1])) 2
         None None (Some 0.1) (Some 0.03) = Ok r
       ∧ length (Binary64.data r) = 4%nat
       ∧ Binary64.data r !! 3%nat
         = Some (0.1 + Binary64.of_Z 2 * ((0.03 - 0.1) / Binary64.of_Z 2)).
Proof.
  destruct (extend_glide [0.1; 0.1] 2 None None 0.1 0.03)
    as (r & Hr & _ & Hlen & _ & Hk); [by left | lia | reflexivity |].
  exists r. split; [exact Hr|]. split; [exact Hlen|].
  apply (Hk 2%nat). simpl. lia.
Defined.

(** C2 as stated fails in three ways.  At horizon 0, which the validation
    lets through, the glide step divides by the horizon and Python raises.
    The last element is not [E] exactly: with [S = 0.5], [E = 0.03] and a
    horizon of 2 it is [0.030000000000000027].  A method other than
    ['average'] and ['last'] makes the call a Failure, glide mode
    included. *)
Lemma extend_glide_counterexample :
  Binary64.extend_array (Binary64.PyArr (Binary64.array1 [1])) 0 None None
    (Some 0.5) (Some 0.03)
  = Raised ZeroDivisionError
  ∧ Binary64.extend_array (Binary64.PyArr (Binary64.array1 [1])) 2 None None
      (Some 0.5) (Some 0.03)
    = Ok (Binary64.array1 [1; 0.26500000000000001; 0.030000000000000027])
  ∧ (0.030000000000000027 =? 0.03) = false
  ∧ Binary64.extend_array (Binary64.PyArr (Binary64.array1 [1])) 2
      (Some "median") None (Some 0.5) (Some 0.03)
    = Failure.
Proof. repeat split. Qed.

End Glide.

Lemma constant_fmap_seq (f : nat → num) (x : num) (s n : nat) :
  (∀ k, f k = x) → f <$> seq s n = replicate n x.
Proof.
  intros Hf. revert s. induction n as [|n IH]; intros s; simpl; [done|].
  by rewrite Hf, IH.
Qed.

Lemma flat_extension (x : num) (n : nat) :
  (λ k, x + k * zero)%num <$> steps_upto n = replicate n x.
Proof.
  unfold steps_upto. rewrite <- list_fmap_compose.
  apply constant_fmap_seq. intros k. simpl. unfold of_Z.
  by rewrite nmul_finite_zero, nadd_zero_r.
Qed.

(** C10. With no start/end pair, no method and no step, [extend_array]
    appends [horizon] copies of the last historical value to a non-empty
    1-dimensional numeric history, for every [horizon >= 0]; an omitted
    method behaves exactly as [method="last"] and is not a Failure. *)
Theorem extend_default_last (l : list num) (x : num) (horizon : Z) :
  last l = Some x → (0 ≤ horizon)%Z →
  extend_array (PyArr (array1 l)) horizon None None None None
  = Ok (array1 (l ++ replicate (Z.to_nat horizon) x))
  ∧ extend_array (PyArr (array1 l)) horizon None None None None
    = extend_array (PyArr (array1 l)) horizon (Some "last") None None None.
Proof.
  intros Hlast Hh. split.
  - unfold extend_array.
    rewrite (valid_method_check None) by by left.
    rewrite (bool_decide_eq_false_2 (ndim (array1 l) ≠ 1%nat)) by (cbn; lia).
    rewrite (bool_decide_eq_false_2 (horizon < 0)%Z) by lia.
    rewrite (bool_decide_eq_false_2 (None = Some "average")) by done.
    unfold last_item. simpl. rewrite Hlast. simpl.
    by rewrite flat_extension.
  - unfold extend_array.
    rewrite (valid_method_check None) by by left.
    rewrite (valid_method_check (Some "last")) by (right; by right).
    rewrite (bool_decide_eq_false_2 (None = Some "average")) by done.
    by rewrite (bool_decide_eq_false_2 (Some "last" = Some "average")).
Qed.

Lemma extend_default_last_witness :
  extend_array (PyArr (array1 [of_Q 4; of_Q 7])) 3 None None None None
  = Ok (array1 [of_Q 4; of_Q 7; of_Q 7; of_Q 7; of_Q 7]).
Proof.
  exact (proj1 (extend_default_last [of_Q 4; of_Q 7] (of_Q 7) 3
                  eq_refl ltac:(lia))).
Defined.

(* ===================================================================== *)
(** ** The trade decision *)
(* ===================================================================== *)

Lemma nltb_irrefl (x : num) : nltb x x = false.
Proof.
  destruct x as [q| | |]; simpl; try done.
  apply bool_decide_eq_false_2. apply Qcle_not_lt, Qcle_refl.
Qed.

(** The lower band lies strictly below the upper band for a positive
    price. *)
Lemma bands_ordered (p : Qc) :
  0 < p →
  nltb ((one - of_Q (8 # 100)) * Finite p)%num
       ((one + of_Q (8 # 100)) * Finite p)%num = true.
Proof.
  intros Hp. unfold nsub, nadd, nmul, nneg, one, of_Q. simpl.
  apply bool_decide_eq_true_2.
  apply Qcmult_lt_compat_r; [done|].
  apply (bool_decide_unpack _). by vm_compute.
Qed.


(* ===================================================================== *)
(** ** Reading a successful run backwards *)
(* ===================================================================== *)

Lemma bind_Ok {A B} (m : result A) (f : A → result B) (b : B) :
  m ≫= f = Ok b → ∃ a, m = Ok a ∧ f a = Ok b.
Proof. destruct m as [a| |e]; simpl; intros H; [eauto | done | done]. Qed.

Lemma check_Ok {A} (x : option A) (a : A) : check x = Ok a → x = Some a.
Proof. destruct x; simpl; congruence. Qed.

(** Inverts every monadic bind of a hypothesis [H : ... = Ok _]. *)
Ltac inv_binds H :=
  repeat match type of H with
  | mbind _ _ = Ok _ =>
      let a := fresh "v" in
      let Ha := fresh "Hv" in
      apply bind_Ok in H; destruct H as (a & Ha & H)
  end.

(** A 1-dimensional array whose shape is the length of its data. *)
Definition wf1 (a : ndarray) : Prop := shape a = [length (data a)].

Lemma wf1_scale (f : num → num) (a : ndarray) : wf1 a → wf1 (scale f a).
Proof. unfold wf1, scale. simpl. intros ->. by rewrite length_fmap. Qed.

Lemma scale_length (f : num → num) (a : ndarray) :
  length (data (scale f a)) = length (data a).
Proof. unfold scale. simpl. by rewrite length_fmap. Qed.

(** What a successful call of [array_arithmetic] returned. *)
Lemma array_arithmetic_Ok (a b op : pyobj) (c : ndarray) :
  array_arithmetic a b op = Ok c →
  ∃ x y s, a = PyArr x ∧ b = PyArr y ∧ op = PyStr s
           ∧ shape x = shape y ∧ lower s ∈ OP_SET
           ∧ c = ufunc2 (op_fun (lower s)) x y.
Proof.
  intros H. destruct op as [ |n|s|o]; simpl in H; try done.
  2:{ by case_bool_decide. }
  case_bool_decide as Hs; [done|].
  destruct a as [ |?|?|x]; try done; destruct b as [ |?|?|y]; try done.
  case_bool_decide as Hsh; [done|].
  case_bool_decide as Hop; [done|].
  assert (Hsh' : shape x = shape y) by (destruct (decide (shape x = shape y)); tauto).
  assert (Hop' : lower s ∈ OP_SET) by (destruct (decide (lower s ∈ OP_SET)); tauto).
  exists x, y, s. repeat split; try done.
  pose proof (array_arithmetic_dispatch x y s Hsh' Hop') as Hd.
  unfold array_arithmetic in Hd.
  rewrite (bool_decide_eq_false_2 _ Hs) in Hd.
  rewrite (bool_decide_eq_false_2 (shape x ≠ shape y)) in Hd by tauto.
  rewrite (bool_decide_eq_false_2 (lower s ∉ OP_SET)) in Hd by tauto.
  congruence.
Qed.

Lemma arith_Ok (a b : option ndarray) (op : string) (c : ndarray) :
  arith a b op = Ok (Some c) →
  ∃ x y, a = Some x ∧ b = Some y ∧ shape x = shape y
         ∧ c = ufunc2 (op_fun (lower op)) x y.
Proof.
  unfold arith. intros H.
  destruct (array_arithmetic (operand a) (operand b) (PyStr op)) as [r| |e] eqn:E;
    try done.
  injection H as ->.
  apply array_arithmetic_Ok in E as (x & y & s & Ha & Hb & Hs & Hsh & _ & Hc).
  injection Hs as <-.
  destruct a as [x'|]; [| done]. destruct b as [y'|]; [| done].
  simpl in Ha, Hb. injection Ha as ->. injection Hb as ->.
  by exists x, y.
Qed.

Lemma arith_check_Ok (a b : option ndarray) (op : string) (c : ndarray) :
  arith a b op ≫= check = Ok c →
  ∃ x y, a = Some x ∧ b = Some y ∧ shape x = shape y
         ∧ c = ufunc2 (op_fun (lower op)) x y.
Proof.
  intros H. apply bind_Ok in H as (o & Ho & Hc).
  apply check_Ok in Hc as ->. by apply arith_Ok.
Qed.

(** [array_arithmetic] with a string operation never raises. *)
Lemma arith_never_raises (a b : option ndarray) (op : string) (e : exn) :
  arith a b op ≠ Raised e.
Proof.
  unfold arith, array_arithmetic. case_bool_decide; [done|].
  destruct a, b; simpl; try done. by repeat case_bool_decide.
Qed.

(* ===================================================================== *)
(** ** The sales forecast of the end-to-end scenario *)
(* ===================================================================== *)

Lemma frame_empty_set_column (name : string) (col : list cell) (df : DataFrame) :
  frame_empty (set_column name col df) = bool_decide (nrows df = 0%nat).
Proof.
  unfold frame_empty, set_column. simpl.
  rewrite (bool_decide_eq_false_2 (<[name:=col]> (columns df) = ∅)).
  - by rewrite orb_false_r.
  - apply insert_non_empty.
Qed.

Lemma dfcol2numpy_set_column_eq (name : string) (col : list cell)
    (df : DataFrame) :
  is_blank name = false → nrows df ≠ 0%nat →
  dfcol2numpy name (set_column name col df) = list2numpy col.
Proof.
  intros Hb Hn. unfold dfcol2numpy.
  rewrite Hb, frame_empty_set_column, (bool_decide_eq_false_2 _ Hn).
  simpl. by rewrite lookup_insert_eq.
Qed.

Lemma dfcol2numpy_set_column_ne (name other : string) (col : list cell)
    (df : DataFrame) :
  name ≠ other →
  dfcol2numpy name (set_column other col df)
  = if is_blank name then None
    else if bool_decide (nrows df = 0%nat) then None
    else columns df !! name ≫= list2numpy.
Proof.
  intros Hne. unfold dfcol2numpy.
  rewrite frame_empty_set_column. simpl.
  rewrite lookup_insert_ne by done.
  destruct (is_blank name); [done|]. case_bool_decide; [done|].
  by destruct (columns df !! name).
Qed.

Definition scenario_sales : list cell :=
  CNum <$> [of_Q 100; of_Q 110; of_Q 121; of_Q (1331 # 10); of_Q (14641 # 100)].

Section Scenario.
Import PrimFloat.
#[local] Open Scope float_scope.

Lemma frame_empty_set_column_binary64 (name : string)
    (col : list Binary64.cell) (df : Binary64.DataFrame) :
  Binary64.frame_empty (Binary64.set_column name col df)
  = bool_decide (Binary64.nrows df = 0%nat).
Proof.
  unfold Binary64.frame_empty, Binary64.set_column. simpl.
  rewrite (bool_decide_eq_false_2 (<[name:=col]> (Binary64.columns df) = ∅)).
  - by rewrite orb_false_r.
  - apply insert_non_empty.
Qed.

Lemma dfcol2numpy_set_column_eq_binary64 (name : string)
    (col : list Binary64.cell) (df : Binary64.DataFrame) :
  is_blank name = false → Binary64.nrows df ≠ 0%nat →
  Binary64.dfcol2numpy name (Binary64.set_column name col df)
  = Binary64.list2numpy col.
Proof.
  intros Hb Hn. unfold Binary64.dfcol2numpy.
  rewrite Hb, frame_empty_set_column_binary64, (bool_decide_eq_false_2 _ Hn).
  simpl. by rewrite lookup_insert_eq.
Qed.

Lemma dfcol2numpy_set_column_ne_binary64 (name other : string)
    (col : list Binary64.cell) (df : Binary64.DataFrame) :
  name ≠ other →
  Binary64.dfcol2numpy name (Binary64.set_column other col df)
  = if is_blank name then None
    else if bool_decide (Binary64.nrows df = 0%nat) then None
    else Binary64.columns df !! name ≫= Binary64.list2numpy.
Proof.
  intros Hne. unfold Binary64.dfcol2numpy.
  rewrite frame_empty_set_column_binary64. simpl.
  rewrite lookup_insert_ne by done.
  destruct (is_blank name); [done|]. case_bool_decide; [done|].
  by destruct (Binary64.columns df !! name).
Qed.

(** The sales history of the scenario, as the doubles the CSV reader
    makes of [100, 110, 121, 133.1, 146.41]. *)
Definition scenario_sales_binary64 : list Binary64.cell :=
  Binary64.CNum <$> [100; 110; 121; 133.1; 146.41].

(** [x] is [y] up to a relative error of [tolerance]. *)
Definition within (tolerance x y : float) : bool :=
  abs (x - y) <=? tolerance * abs y.

(** C1, as the code has it, in binary64.  With the sales history
    [100, 110, 121, 133.1, 146.41], terminal growth 3% and a horizon of 2,
    the pipeline (percent change, mean over the defined periods, glide
    extension, compounding from the first historical sales value) produces
    the mean growth [0.10000000000000003], the glide values
    [0.06500000000000002] and [0.03], and a sales path of seven values
    that ends [146.41000000000003, 155.92665000000002, 160.60444950000002].
    These agree with the last actual [146.41] and with [146.41*(1+g1)] and
    [146.41*(1+g1)*(1+g2)], for [g1 = 0.1 + (0.03-0.1)/2] and [g2 = 0.03],
    to a relative error of [1e-15]; they are not equal to them. *)
Theorem sales_forecast_scenario (df : Binary64.DataFrame) :
  Binary64.wf_frame df →
  Binary64.columns df !! SALES_VAR = Some scenario_sales_binary64 →
  let g1 := 0.1 + (0.03 - 0.1) / 2 in
  let g2 := 0.03 in
  ∃ df' sales growth_extended path,
    Binary64.step2 df = Ok df'
    ∧ Binary64.dfcol2numpy SALES_VAR df' = Some sales
    ∧ Binary64.extend_sales_growth 2 0.03
        (Binary64.dfcol2numpy SALES_GROWTH df') = Ok growth_extended
    ∧ Binary64.sales_forecast sales growth_extended = Ok path
    ∧ Binary64.nanmean_of (Binary64.dfcol2numpy SALES_GROWTH df')
      = Ok 0.10000000000000003
    ∧ Binary64.data growth_extended
      = [nan; 0.10000000000000009; 0.10000000000000009;
         0.099999999999999867; 0.10000000000000009;
         0.065000000000000016; 0.03]
    ∧ Binary64.data path
      = [100; 110.00000000000001; 121.00000000000001; 133.1;
         146.41000000000003; 155.92665000000002; 160.60444950000002]
    ∧ within 1e-15 146.41000000000003 146.41 = true
    ∧ within 1e-15 155.92665000000002 (146.41 * (1 + g1)) = true
    ∧ within 1e-15 160.60444950000002 (146.41 * (1 + g1) * (1 + g2)) = true.
Proof.
  intros Hwf Hs g1 g2.
  assert (Hn : Binary64.nrows df ≠ 0%nat).
  { rewrite <- (Hwf _ _ Hs). simpl. lia. }
  unfold Binary64.step2. rewrite Hs. cbn [mbind result_bind].
  eexists _, _, _, _. split; [reflexivity|].
  split.
  { rewrite dfcol2numpy_set_column_ne_binary64 by done.
    rewrite (bool_decide_eq_false_2 _ Hn), Hs. reflexivity. }
  split.
  { rewrite dfcol2numpy_set_column_eq_binary64 by done. reflexivity. }
  split; [reflexivity|].
  split.
  { rewrite dfcol2numpy_set_column_eq_binary64 by done. reflexivity. }
  repeat split.
Qed.

Definition scenario_frame_binary64 : Binary64.DataFrame :=
  {| Binary64.nrows := 5;
     Binary64.columns := {[ SALES_VAR := scenario_sales_binary64 ]} |}.

Lemma sales_forecast_scenario_witness :
  ∃ df' sales growth_extended path,
    Binary64.step2 scenario_frame_binary64 = Ok df'
    ∧ Binary64.dfcol2numpy SALES_VAR df' = Some sales
    ∧ Binary64.extend_sales_growth 2 0.03
        (Binary64.dfcol2numpy SALES_GROWTH df') = Ok growth_extended
    ∧ Binary64.sales_forecast sales growth_extended = Ok path
    ∧ Binary64.nanmean_of (Binary64.dfcol2numpy SALES_GROWTH df')
      = Ok 0.10000000000000003
    ∧ Binary64.data growth_extended
      = [nan; 0.10000000000000009; 0.10000000000000009;
         0.099999999999999867; 0.10000000000000009;
         0.065000000000000016; 0.03]
    ∧ Binary64.data path
      = [100; 110.00000000000001; 121.00000000000001; 133.1;
         146.41000000000003; 155.92665000000002; 160.60444950000002]
    ∧ within 1e-15 146.41000000000003 146.41 = true
    ∧ within 1e-15 155.92665000000002
        (146.41 * (1 + (0.1 + (0.03 - 0.1) / 2))) = true
    ∧ within 1e-15 160.60444950000002
        (146.41 * (1 + (0.1 + (0.03 - 0.1) / 2)) * (1 + 0.03)) = true.
Proof.
  apply (sales_forecast_scenario scenario_frame_binary64).
  - intros name col Hcol. cbn [scenario_frame_binary64 Binary64.columns] in Hcol.
    apply lookup_singleton_Some in Hcol as [_ <-]. reflexivity.
  - reflexivity.
Defined.

(** C1 as stated fails on its own input: the code's values are beside the
    stated ones.  The mean of the derived growth rates is not [0.1], the
    path does not reproduce the last actual [146.41], and the two forecast
    values are not [146.41*(1+g1)] and [146.41*(1+g1)*(1+g2)]. *)
Lemma sales_forecast_scenario_counterexample :
  ∃ df' sales growth_extended path,
    Binary64.step2 scenario_frame_binary64 = Ok df'
    ∧ Binary64.dfcol2numpy SALES_VAR df' = Some sales
    ∧ Binary64.extend_sales_growth 2 0.03
        (Binary64.dfcol2numpy SALES_GROWTH df') = Ok growth_extended
    ∧ Binary64.sales_forecast sales growth_extended = Ok path
    ∧ Binary64.nanmean_of (Binary64.dfcol2numpy SALES_GROWTH df')
      = Ok 0.10000000000000003
    ∧ (0.10000000000000003 =? 0.1) = false
    ∧ Binary64.data path !! 4%nat = Some 146.41000000000003
    ∧ (146.41000000000003 =? 146.41) = false
    ∧ Binary64.data path !! 5%nat = Some 155.92665000000002
    ∧ (155.92665000000002 =? 146.41 * (1 + (0.1 + (0.03 - 0.1) / 2))) = false
    ∧ Binary64.data path !! 6%nat = Some 160.60444950000002
    ∧ (160.60444950000002
       =? 146.41 * (1 + (0.1 + (0.03 - 0.1) / 2)) * (1 + 0.03)) = false.
Proof. eexists _, _, _, _. repeat split. Qed.

End Scenario.

(** The end-to-end scenario: five years of sales growing by 10%, a COGS
    margin of 0.6, terminal growth 3%, WACC 10% and a horizon of 2. *)
Definition scenario_config : Config :=
  {| N_HISTORICAL_YEARS := 5;
     N_FORECAST_YEARS := 2;
     TERMINAL_GROWTH_RATE := of_Q (3 # 100);
     TERMINAL_COGS_MARGIN_RATE := of_Q (60 # 100);
     TERMINAL_SGA_MARGIN_RATE := of_Q (30 # 100);
     TERMINAL_RD_MARGIN_RATE := of_Q (10 # 100);
     TERMINAL_DEPR_TO_CAPEX_RATE := of_Q 1;
     WACC := of_Q (10 # 100);
     BUY_SELL_THRESHOLD := of_Q (8 # 100) |}.

(** A column that is the given fraction of sales, and a constant column. *)
Definition share_of_sales (k : Q) : list cell :=
  (λ c, match c with
        | CNum x => CNum (of_Q k * x)%num
        | CText s => CText s
        end) <$> scenario_sales.

Definition constant_column (q : Q) : list cell := replicate 5 (CNum (of_Q q)).

Definition scenario_frame : DataFrame :=
  {| nrows := 5;
     columns := list_to_map
       [ (SALES_VAR, scenario_sales);
         (COGS_VAR, share_of_sales (60 # 100));
         (GROSS_PROFIT_VAR, share_of_sales (40 # 100));
         (OTHER_OPER_INC_VAR, constant_column 0);
         (OPER_EXP_VAR, share_of_sales (20 # 100));
         (SGA_EXP_VAR, share_of_sales (15 # 100));
         (RD_EXP_VAR, share_of_sales (5 # 100));
         (OTHER_OPER_EXP_VAR, constant_column 0);
         (OPER_INC_VAR, share_of_sales (20 # 100));
         (PRETAX_INC, share_of_sales (20 # 100));
         (TAX_EXP_VAR, share_of_sales (5 # 100));
         (EFFECTIVE_TAX_RATE_VAR, constant_column 25);
         (CAPEX_VAR, share_of_sales (4 # 100));
         (CAPEX_TO_SALES_VAR, constant_column 4);
         (EBITDA_VAR, share_of_sales (25 # 100));
         (EBITA_VAR, share_of_sales (21 # 100));
         (DEPRECIATION_EXPENSE_VAR, share_of_sales (4 # 100));
         (TOTAL_CURRENT_ASSETS_VAR, share_of_sales (30 # 100));
         (TOTAL_CURRENT_LIABILITIES_VAR, share_of_sales (20 # 100));
         (SHORT_TERM_DEBT, constant_column 5);
         (SHORT_TERM_PORTION_OF_LONG_TERM_DEBT, constant_column 1);
         (LONG_TERM_DEBT, constant_column 20);
         (PREFERRED_EQUITY, constant_column 0);
         (MINORITY_INTEREST, constant_column 0);
         (CASH_AND_EQUIVALENTS, constant_column 10);
         (N_SHARES_OUTSTANDING, constant_column 10) ] |}.

Lemma scenario_frame_wf : wf_frame scenario_frame.
Proof. apply (bool_decide_unpack _). by vm_compute. Qed.

(** The whole script on the scenario: the run reaches the decision and
    issues one. *)
Example scenario_run :
  ∃ r, run scenario_config (of_Q 30) scenario_frame = Ok r
       ∧ length (decisions r) = 1%nat.
Proof.
  destruct (run scenario_config (of_Q 30) scenario_frame) as [r| |e] eqn:E;
    [| by vm_compute in E ..].
  exists r. split; [reflexivity|].
  vm_compute in E. by injection E as <-.
Qed.

(* ===================================================================== *)
(** ** Lengths along a run, and the discounting *)
(* ===================================================================== *)

(** A 1-dimensional array of [k] elements. *)
Definition vecn (k : nat) (a : ndarray) : Prop :=
  shape a = [k] ∧ length (data a) = k.

Lemma vecn_wf1 (k : nat) (a : ndarray) : vecn k a → wf1 a.
Proof. intros [Hs Hl]. unfold wf1. by rewrite Hs, Hl. Qed.

Lemma ufunc2_vecn (f : num → num → num) (k : nat) (a b : ndarray) :
  vecn k a → wf1 b → shape a = shape b → vecn k (ufunc2 f a b).
Proof.
  intros [Hs Hl] Hb Hab. unfold wf1 in Hb.
  assert (length (data b) = k) by (rewrite Hs in Hab; congruence).
  split; simpl; [done|]. rewrite length_zip_with. lia.
Qed.

Lemma arith_check_vecn (k : nat) (a b : ndarray) (op : string) (c : ndarray) :
  arith (Some a) (Some b) op ≫= check = Ok c →
  vecn k a → wf1 b → vecn k c.
Proof.
  intros H Ha Hb.
  apply arith_check_Ok in H as (x & y & Hx & Hy & Hs & ->).
  injection Hx as <-. injection Hy as <-. by apply ufunc2_vecn.
Qed.

Lemma extend_array_Ok (arr : pyobj) (F : Z) (m : option string)
    (st s e : option num) (r : ndarray) :
  extend_array arr F m st s e = Ok r →
  ∃ a, arr = PyArr a ∧ (0 ≤ F)%Z
       ∧ vecn (length (data a) + Z.to_nat F) r
       ∧ take (length (data a)) (data r) = data a.
Proof.
  unfold extend_array. intros H.
  destruct arr as [ | | |a]; try done.
  assert (Hfin : ∀ b st' r',
     Ok {| shape := [length (data a ++ ((λ k, b + k * st')%num
                                        <$> steps_upto (Z.to_nat F)))];
           is_number := is_number a;
           data := data a ++ ((λ k, b + k * st')%num
                              <$> steps_upto (Z.to_nat F)) |} = Ok r' →
     vecn (length (data a) + Z.to_nat F) r'
     ∧ take (length (data a)) (data r') = data a).
  { intros b st' r' Hr. injection Hr as <-. simpl.
    rewrite take_app_length. split; [|done].
    split; simpl; rewrite length_app, length_fmap, steps_upto_length; done. }
  exists a. split; [done|].
  repeat (case_bool_decide; try done).
  all: split; [lia|].
  all: destruct s as [s|], e as [e|];
    repeat match type of H with
    | match ?x with _ => _ end = _ => destruct x eqn:?; try done
    end; by eapply Hfin.
Qed.

Lemma py_div_Ok (x y q : num) :
  py_div x y = Ok q → y ≠ zero ∧ q = (x / y)%num.
Proof.
  unfold py_div. destruct (neqb y zero) eqn:E; [done|].
  intros [= <-]. split; [|done]. intros ->.
  by rewrite (proj2 (neqb_zero_iff zero)) in E.
Qed.

Lemma glide_Ok (cfg : Config) (arr : option ndarray) (s e : num)
    (r : ndarray) :
  glide cfg arr s e = Ok r →
  ∃ a, arr = Some a ∧ (1 ≤ N_FORECAST_YEARS cfg)%Z
       ∧ vecn (length (data a) + Z.to_nat (N_FORECAST_YEARS cfg)) r
       ∧ take (length (data a)) (data r) = data a.
Proof.
  unfold glide. intros H.
  pose proof H as H'.
  apply extend_array_Ok in H as (a & Ha & HF & Hv & Ht).
  destruct arr as [a'|]; [|done]. simpl in Ha. injection Ha as ->.
  exists a. repeat split; try done; try apply Hv.
  destruct (decide (N_FORECAST_YEARS cfg = 0%Z)) as [H0|]; [|lia].
  exfalso. unfold extend_array in H'. simpl in H'. rewrite H0 in H'.
  repeat (case_bool_decide; try done).
Qed.

Lemma apply_growth_Ok (v g : pyobj) (r : ndarray) :
  apply_growth v g = Ok r →
  ∃ v0 a, v = PyNum v0 ∧ g = PyArr a
          ∧ r = array1 (v0 :: ((λ m, v0 * m)%num <$> cumprod (factors (data a)))).
Proof.
  unfold apply_growth. intros H.
  destruct v as [ |v0| | ]; try done. destruct g as [ | | |a]; try done.
  case_bool_decide; [done|]. destruct (is_number a); [|done].
  injection H as <-. by exists v0, a.
Qed.

Lemma delta_numpy_Ok (a : ndarray) (fv : option num) (r : ndarray) :
  delta_numpy (PyArr a) fv = Ok r → wf1 a →
  vecn (length (data a)) r ∧ data r !! 0%nat = Some (first_delta fv).
Proof.
  unfold delta_numpy. intros H Ha.
  repeat (case_bool_decide; try done).
  destruct (is_number a); [|done]. simpl in H. injection H as <-.
  unfold wf1 in Ha. unfold size in *. rewrite Ha in *. simpl in *.
  split; [|by destruct fv].
  split; simpl; [done|].
  rewrite length_zip_with, length_drop, length_take. lia.
Qed.

Record drivers_wf1 (d : Drivers) : Prop := {
  wf_cogs : wf1 (cogs_margin_arr_extended d);
  wf_other_inc : wf1 (other_oper_inc_margin_arr_extended d);
  wf_sga : wf1 (sga_margin_arr_extended d);
  wf_rd : wf1 (rd_margin_arr_extended d);
  wf_other_exp : wf1 (other_oper_exp_margin_arr_extended d);
  wf_tax : wf1 (effective_tax_rate_arr_extended d);
  wf_capex : wf1 (capex_margin_arr_extended d);
  wf_depr : wf1 (depr_capex_arr_extended d);
  wf_amort : wf1 (amortization_margin_arr_extended d);
  wf_wc : wf1 (working_capital_margin_arr_extended d)
}.

Lemma glide_wf1 (cfg : Config) (arr : option ndarray) (s e : num)
    (r : ndarray) :
  glide cfg arr s e = Ok r → wf1 r.
Proof.
  intros H. apply glide_Ok in H as (a & _ & _ & Hv & _). by eapply vecn_wf1.
Qed.

Lemma step6_Ok (cfg : Config) (h : Historical) (c : Checks) (m : Margins)
    (d : Drivers) :
  step6 cfg h c m = Ok d →
  (1 ≤ N_FORECAST_YEARS cfg)%Z
  ∧ (∃ g, sales_growth_arr h = Some g
          ∧ vecn (length (data g) + Z.to_nat (N_FORECAST_YEARS cfg))
                 (sales_growth_arr_extended d))
  ∧ drivers_wf1 d
  ∧ extend_effective_tax_rate cfg (calculated_effective_tax_rate_arr c)
    = Ok (effective_tax_rate_arr_extended d).
Proof.
  unfold step6. intros H. inv_binds H. injection H as <-. simpl.
  match goal with
  | Hsg : extend_sales_growth _ _ = Ok _ |- _ =>
      pose proof Hsg as Hsg'; unfold extend_sales_growth in Hsg';
      inv_binds Hsg'; apply glide_Ok in Hsg' as (g & Hg & HF & Hvec & _)
  end.
  split; [done|]. split; [exists g; by split|]. split; [|done].
  match goal with
  | Htax : extend_effective_tax_rate _ _ = Ok _ |- _ =>
      unfold extend_effective_tax_rate in Htax; inv_binds Htax
  end.
  split; simpl; by eapply glide_wf1.
Qed.

Lemma arith_vecn (k : nat) (a b : ndarray) (op : string) (c : ndarray) :
  arith (Some a) (Some b) op = Ok (Some c) →
  vecn k a → wf1 b → vecn k c.
Proof.
  intros H Ha Hb.
  apply arith_Ok in H as (x & y & Hx & Hy & Hs & ->).
  injection Hx as <-. injection Hy as <-. by apply ufunc2_vecn.
Qed.

Lemma slice_from_1 (a : ndarray) : slice_from 1 a = array1 (drop 1 (data a)).
Proof. reflexivity. Qed.

Lemma sales_forecast_Ok (sales sge path : ndarray) (k : nat) :
  sales_forecast sales sge = Ok path →
  vecn k sge → (1 ≤ k)%nat →
  vecn k path
  ∧ ∃ v0, item_first sales = Ok v0
          ∧ path = array1 (v0 :: ((λ m, v0 * m)%num
                                  <$> cumprod (factors (drop 1 (data sge))))).
Proof.
  unfold sales_forecast. intros H [Hs Hl] Hk. inv_binds H.
  apply apply_growth_Ok in H as (v0 & a & Hv0 & Ha & ->).
  injection Hv0 as <-. injection Ha as <-.
  split; [|by exists v].
  split; simpl; rewrite length_fmap, cumprod_length; unfold factors;
    rewrite length_fmap, length_drop, Hl; [f_equal|]; lia.
Qed.

(** Forward propagation of lengths through the arithmetic of a stage. *)
Ltac name_operands :=
  repeat match goal with
  | H : check ?o = Ok _ |- _ => is_var o; apply check_Ok in H; subst o
  | H : arith ?o _ _ = Ok (Some _) |- _ =>
      is_var o;
      let H' := fresh in
      pose proof H as H';
      apply arith_Ok in H' as (? & ? & -> & _)
  | H : arith _ ?o _ = Ok (Some _) |- _ =>
      is_var o;
      let H' := fresh in
      pose proof H as H';
      apply arith_Ok in H' as (? & ? & _ & -> & _)
  | H : arith ?o _ _ ≫= check = Ok _ |- _ =>
      is_var o;
      let H' := fresh in
      pose proof H as H';
      apply arith_check_Ok in H' as (? & ? & -> & _)
  | H : arith _ ?o _ ≫= check = Ok _ |- _ =>
      is_var o;
      let H' := fresh in
      pose proof H as H';
      apply arith_check_Ok in H' as (? & ? & _ & -> & _)
  end.

Ltac vec_forward k :=
  repeat match goal with
  | H : arith (Some ?a) (Some ?b) _ ≫= check = Ok ?c, Ha : vecn k ?a |- _ =>
      lazymatch goal with
      | Hc : vecn k c |- _ => fail
      | _ => assert (vecn k c)
               by (apply (arith_check_vecn k a b _ c H Ha);
                   eauto using vecn_wf1, wf1_scale)
      end
  | H : arith (Some ?a) (Some ?b) _ = Ok (Some ?c), Ha : vecn k ?a |- _ =>
      lazymatch goal with
      | Hc : vecn k c |- _ => fail
      | _ => assert (vecn k c)
               by (apply (arith_vecn k a b _ c H Ha);
                   eauto using vecn_wf1, wf1_scale)
      end
  end.

Lemma step7_Ok (h : Historical) (d : Drivers) (f : Forecast) (k : nat) :
  step7 h d = Ok f →
  drivers_wf1 d → vecn k (sales_growth_arr_extended d) → (1 ≤ k)%nat →
  vecn k (sales_forecast_arr f)
  ∧ vecn k (nopat_forecast_arr f)
  ∧ vecn k (depreciation_forecast_arr f)
  ∧ vecn k (amortization_forecast_arr f)
  ∧ vecn k (capex_forecast_arr f)
  ∧ vecn k (change_in_working_capital_forecast_arr f).
Proof.
  unfold step7. intros H [] Hsg Hk. inv_binds H. injection H as <-. simpl.
  match goal with
  | Hs : sales_forecast _ _ = Ok _ |- _ =>
      apply (sales_forecast_Ok _ _ _ k) in Hs as [Hsales _]; [| done | done]
  end.
  name_operands. vec_forward k.
  match goal with
  | Hd : delta_numpy (PyArr ?w) _ = Ok _, Hw : vecn k ?w |- _ =>
      apply delta_numpy_Ok in Hd as [Hd _]; [| by eapply vecn_wf1];
      rewrite (proj2 Hw) in Hd
  end.
  done.
Qed.

Lemma fcf_full_Ok (f : Forecast) (k : nat) (fcf : ndarray) :
  fcf_full f = Ok fcf →
  vecn k (nopat_forecast_arr f) →
  vecn k (depreciation_forecast_arr f) →
  vecn k (amortization_forecast_arr f) →
  vecn k (capex_forecast_arr f) →
  vecn k (change_in_working_capital_forecast_arr f) →
  vecn k fcf.
Proof.
  unfold fcf_full. intros H ? ? ? ? ?. inv_binds H.
  name_operands. vec_forward k. done.
Qed.

Lemma cumprod_from_replicate (x : num) (j n : nat) :
  cumprod_from (npow x j) (replicate n x)
  = (λ k, npow x (j + S k)) <$> seq 0 n.
Proof.
  revert j. induction n as [|n IH]; intros j; [done|].
  cbn [replicate cumprod_from]. change (npow x j * x)%num with (npow x (S j)).
  rewrite IH. cbn [seq fmap list_fmap].
  rewrite <- fmap_S_seq, <- list_fmap_compose.
  f_equal; [f_equal; lia|].
  apply list_fmap_ext. intros _ k _. unfold compose. f_equal. lia.
Qed.

Lemma cumprod_replicate (x : num) (n : nat) :
  cumprod (replicate n x) = (λ k, npow x (S k)) <$> seq 0 n.
Proof.
  destruct n as [|n]; [done|].
  pose proof (cumprod_from_replicate x 1 n) as H.
  cbn [npow] in H. rewrite nmul_one_l in H.
  cbn [replicate cumprod]. rewrite H. cbn [seq fmap list_fmap].
  rewrite <- fmap_S_seq, <- list_fmap_compose.
  f_equal. cbn [npow]. by rewrite nmul_one_l.
Qed.

(** The discount factors [(1+WACC)^0 .. (1+WACC)^horizon]. *)
Definition discount_path (cfg : Config) : list num :=
  (λ k, npow (one + WACC cfg) k) <$> seq 0 (S (Z.to_nat (N_FORECAST_YEARS cfg))).

Lemma discount_factors_Ok (cfg : Config) (w : ndarray) :
  discount_factors cfg = Ok (Some w) →
  (1 ≤ N_FORECAST_YEARS cfg)%Z ∧ w = array1 (discount_path cfg).
Proof.
  unfold discount_factors, np_full. case_bool_decide as HF; [done|].
  unfold mbind, result_bind.
  destruct (apply_growth _ _) as [r| |] eqn:E; try done.
  intros [= <-]. pose proof E as E'.
  apply apply_growth_Ok in E as (v0 & a & Hv & Ha & ->).
  injection Hv as <-. injection Ha as <-. simpl.
  split.
  - destruct (decide (N_FORECAST_YEARS cfg = 0%Z)) as [H0|]; [|lia].
    exfalso. rewrite H0 in E'. by vm_compute in E'.
  - unfold discount_path, factors. f_equal.
    rewrite fmap_replicate, cumprod_replicate. simpl. f_equal.
    rewrite <- fmap_S_seq, <- !list_fmap_compose.
    apply list_fmap_ext. intros _ k _. simpl. by rewrite nmul_one_l.
Qed.

Lemma ndiv_one (x : num) : (x / one)%num = x.
Proof.
  destruct x as [q| | |]; unfold ndiv, one; try done.
  case_decide as H; [by vm_compute in H|]. f_equal. by field.
Qed.

Lemma safe_div_one (x : num) : safe_div x one = x.
Proof. unfold safe_div. rewrite ndiv_one. reflexivity. Qed.

Lemma step9_Ok (cfg : Config) (h : Historical) (fcf : ndarray)
    (v : Valuation) :
  step9 cfg h fcf = Ok v →
  (1 ≤ N_FORECAST_YEARS cfg)%Z
  ∧ wacc_arr v = Some (array1 (discount_path cfg))
  ∧ shape fcf = [length (discount_path cfg)]
  ∧ pv_forecasted_fcf_arr v = ufunc2 safe_div fcf (array1 (discount_path cfg))
  ∧ pv_forecasted_fcf_sum v = nsum (data (pv_forecasted_fcf_arr v))
  ∧ enterprise_value v
    = (pv_forecasted_fcf_sum v + pv_terminal_value v)%num.
Proof.
  unfold step9. intros H. inv_binds H. injection H as <-.
  cbn [wacc_arr pv_forecasted_fcf_arr pv_forecasted_fcf_sum enterprise_value
       pv_terminal_value].
  name_operands.
  match goal with
  | Hd : discount_factors _ = Ok (Some _) |- _ =>
      apply discount_factors_Ok in Hd as [HF ->]
  end.
  match goal with
  | Hp : arith _ _ _ ≫= check = Ok _ |- _ =>
      apply arith_check_Ok in Hp as (a & b & [= <-] & [= <-] & Hs & ->)
  end.
  done.
Qed.

Lemma list2numpy_Some (col : list cell) (a : ndarray) :
  list2numpy col = Some a →
  ∃ xs, mapM cell_number col = Some xs ∧ a = array1 xs
        ∧ length xs = length col.
Proof.
  unfold list2numpy. case_bool_decide; [done|].
  destruct (mapM cell_number col) as [xs|] eqn:E; [|done].
  intros [= <-]. exists xs. repeat split. symmetry. by eapply length_mapM.
Qed.

Lemma dfcol2numpy_Some (name : string) (df : DataFrame) (a : ndarray) :
  dfcol2numpy name df = Some a →
  ∃ col, columns df !! name = Some col ∧ list2numpy col = Some a.
Proof.
  unfold dfcol2numpy. destruct (is_blank name); [done|].
  destruct (frame_empty df); [done|].
  destruct (columns df !! name) as [col|]; [|done]. eauto.
Qed.

Lemma pct_change_length (col g : list cell) :
  pct_change col = Ok g → length g = length col.
Proof.
  unfold pct_change. destruct (mapM cell_number col) as [xs|] eqn:E; [|done].
  intros [= <-]. apply length_mapM in E. rewrite length_fmap.
  destruct xs as [|x t]; simpl in *; [done|].
  rewrite length_zip_with. simpl. lia.
Qed.

Lemma step2_Ok (df df' : DataFrame) :
  step2 df = Ok df' →
  ∃ col g, columns df !! SALES_VAR = Some col ∧ pct_change col = Ok g
           ∧ df' = set_column SALES_GROWTH g df.
Proof.
  unfold step2. destruct (columns df !! SALES_VAR) as [col|]; [|done].
  intros H. inv_binds H. injection H as <-. eauto.
Qed.

Lemma step3_Ok (df : DataFrame) (h : Historical) :
  step3 df = Ok h →
  dfcol2numpy SALES_VAR df = Some (sales_arr h)
  ∧ sales_growth_arr h = dfcol2numpy SALES_GROWTH df
  ∧ percent (dfcol2numpy EFFECTIVE_TAX_RATE_VAR df) = Ok (effective_tax_rate_arr h)
  ∧ tax_exp_arr h = dfcol2numpy TAX_EXP_VAR df
  ∧ pretax_inc_arr h = dfcol2numpy PRETAX_INC df
  ∧ gp_arr h = dfcol2numpy GROSS_PROFIT_VAR df
  ∧ oper_exp_arr h = dfcol2numpy OPER_EXP_VAR df
  ∧ oper_inc_arr h = dfcol2numpy OPER_INC_VAR df
  ∧ depreciation_arr h = dfcol2numpy DEPRECIATION_EXPENSE_VAR df
  ∧ other_oper_inc_arr h = dfcol2numpy OTHER_OPER_INC_VAR df
  ∧ arith (dfcol2numpy EBITA_VAR df) (dfcol2numpy OPER_INC_VAR df) "subtract"
    = Ok (amortization_arr h).
Proof.
  unfold step3. intros H. inv_binds H. injection H as <-. simpl.
  match goal with Hc : check _ = Ok _ |- _ => apply check_Ok in Hc end.
  done.
Qed.

Lemma history_lengths (df df' : DataFrame) (h : Historical) (g : ndarray) :
  step2 df = Ok df' → step3 df' = Ok h → sales_growth_arr h = Some g →
  length (data g) = length (data (sales_arr h)).
Proof.
  intros H2 H3 Hg.
  apply step2_Ok in H2 as (col & growth & Hcol & Hpct & ->).
  apply step3_Ok in H3 as (Hs & Hsg & _).
  rewrite Hg in Hsg. symmetry in Hsg.
  apply dfcol2numpy_Some in Hs as (c1 & Hc1 & Hl1).
  apply dfcol2numpy_Some in Hsg as (c2 & Hc2 & Hl2).
  simpl in Hc1, Hc2. rewrite lookup_insert_ne in Hc1 by done.
  rewrite lookup_insert_eq in Hc2. simplify_eq.
  apply list2numpy_Some in Hl1 as (xs & _ & -> & Hx).
  apply list2numpy_Some in Hl2 as (ys & _ & -> & Hy).
  simpl. apply pct_change_length in Hpct. lia.
Qed.

Lemma discount_path_length (cfg : Config) :
  length (discount_path cfg) = S (Z.to_nat (N_FORECAST_YEARS cfg)).
Proof. unfold discount_path. by rewrite length_fmap, length_seq. Qed.

Lemma discount_path_lookup (cfg : Config) (k : nat) :
  (k ≤ Z.to_nat (N_FORECAST_YEARS cfg))%nat →
  discount_path cfg !! k = Some (npow (one + WACC cfg) k).
Proof.
  intros Hk. unfold discount_path.
  rewrite list_lookup_fmap, lookup_seq_lt by lia. done.
Qed.



(* ===================================================================== *)
(** ** The effective tax rate carried into the projection *)
(* ===================================================================== *)

(** The historical arrays with another reported effective tax rate. *)
Definition set_reported_tax (e : ndarray) (h : Historical) : Historical :=
  {| sales_arr := sales_arr h;
     sales_growth_arr := sales_growth_arr h;
     cogs_arr := cogs_arr h;
     gp_arr := gp_arr h;
     other_oper_inc_arr := other_oper_inc_arr h;
     other_oper_exp_arr := other_oper_exp_arr h;
     sga_exp_arr := sga_exp_arr h;
     rd_exp_arr := rd_exp_arr h;
     oper_exp_arr := oper_exp_arr h;
     oper_inc_arr := oper_inc_arr h;
     pretax_inc_arr := pretax_inc_arr h;
     tax_exp_arr := tax_exp_arr h;
     effective_tax_rate_arr := e;
     capital_expenditure_arr := capital_expenditure_arr h;
     ebitda_arr := ebitda_arr h;
     ebita_arr := ebita_arr h;
     depreciation_arr := depreciation_arr h;
     amortization_arr := amortization_arr h;
     total_current_assets_arr := total_current_assets_arr h;
     total_current_liabilities_arr := total_current_liabilities_arr h;
     working_capital_arr := working_capital_arr h;
     st_debt_arr := st_debt_arr h;
     stlt_debt_arr := stlt_debt_arr h;
     lt_debt_arr := lt_debt_arr h;
     total_debt_arr := total_debt_arr h;
     preferred_equity_arr := preferred_equity_arr h;
     minority_interest_arr := minority_interest_arr h;
     cash_and_equivalents_arr := cash_and_equivalents_arr h;
     shares_out_arr := shares_out_arr h |}.

(** The checks with another outcome of the effective-tax-rate check. *)
Definition set_tax_check (b : bool) (c : Checks) : Checks :=
  {| calculated_gross_profit_arr := calculated_gross_profit_arr c;
     check_gross_margin_arr := check_gross_margin_arr c;
     calculated_oper_exp_arr := calculated_oper_exp_arr c;
     check_oper_exp_arr := check_oper_exp_arr c;
     calculated_oper_inc_arr := calculated_oper_inc_arr c;
     check_oper_inc_arr := check_oper_inc_arr c;
     calculated_effective_tax_rate_arr := calculated_effective_tax_rate_arr c;
     check_effective_tax_rate_arr := b;
     calculated_depreciation_arr := calculated_depreciation_arr c;
     check_depreciation_arr := check_depreciation_arr c |}.

(** Rewrites the sub-computations of the goal with the results a
    successful run recorded for them. *)
Ltac replay :=
  repeat (match goal with
          | H : ?m = Ok _ |- context [?m] => rewrite H
          end; cbn [mbind result_bind]).

Lemma allclose_same_length (e e' calc : ndarray) (b : bool) :
  length (data e') = length (data e) →
  allclose tol tol (Some e) (Some calc) = Ok b →
  ∃ b', allclose tol tol (Some e') (Some calc) = Ok b'.
Proof.
  unfold allclose. intros Hlen. rewrite Hlen.
  case_bool_decide; [eauto|].
  destruct (data e) as [|u [|u2 t]], (data e') as [|u' [|u2' t']],
    (data calc) as [|w [|w2 s]];
    simpl in Hlen; try discriminate Hlen; intros Hok; try discriminate Hok;
    eauto.
Qed.

Lemma step4_reported_tax (h : Historical) (c : Checks) (e' : ndarray) :
  length (data e') = length (data (effective_tax_rate_arr h)) →
  step4 h = Ok c →
  ∃ b, step4 (set_reported_tax e' h) = Ok (set_tax_check b c).
Proof.
  intros Hlen H. unfold step4 in H. inv_binds H. injection H as <-.
  match goal with
  | Ha : allclose _ _ (Some (effective_tax_rate_arr h)) _ = Ok _ |- _ =>
      destruct (allclose_same_length _ e' _ _ Hlen Ha) as [b Hb]
  end.
  exists b. unfold step4. cbn [set_reported_tax sales_arr cogs_arr gp_arr
    sga_exp_arr rd_exp_arr other_oper_exp_arr oper_exp_arr other_oper_inc_arr
    oper_inc_arr tax_exp_arr pretax_inc_arr effective_tax_rate_arr ebitda_arr
    ebita_arr depreciation_arr].
  replay. reflexivity.
Qed.

Definition numeric_column (col : list cell) : Prop :=
  is_Some (mapM cell_number col).

Lemma dfcol2numpy_other (name : string) (g col' : list cell) (df : DataFrame) :
  name ≠ EFFECTIVE_TAX_RATE_VAR →
  dfcol2numpy name
    (set_column SALES_GROWTH g (set_column EFFECTIVE_TAX_RATE_VAR col' df))
  = dfcol2numpy name (set_column SALES_GROWTH g df).
Proof.
  intros Hne. unfold dfcol2numpy. rewrite !frame_empty_set_column. simpl.
  destruct (decide (name = SALES_GROWTH)) as [->|Hsg].
  - by rewrite !lookup_insert_eq.
  - by rewrite !lookup_insert_ne.
Qed.

Lemma dfcol2numpy_reported_tax (g col : list cell) (df : DataFrame) :
  dfcol2numpy EFFECTIVE_TAX_RATE_VAR
    (set_column SALES_GROWTH g (set_column EFFECTIVE_TAX_RATE_VAR col df))
  = if bool_decide (nrows df = 0%nat) then None else list2numpy col.
Proof.
  rewrite dfcol2numpy_set_column_ne by done.
  change (is_blank EFFECTIVE_TAX_RATE_VAR) with false. simpl.
  case_bool_decide; [done|]. by rewrite lookup_insert_eq.
Qed.

Lemma percent_Ok (x : option ndarray) (r : ndarray) :
  percent x = Ok r → ∃ a, x = Some a ∧ r = scale (λ v, v / of_Z 100)%num a.
Proof. destruct x as [a|]; simpl; [|done]. intros [= <-]. eauto. Qed.

Ltac other_columns :=
  repeat match goal with
  | |- context [dfcol2numpy ?name
                  (set_column SALES_GROWTH ?g
                     (set_column EFFECTIVE_TAX_RATE_VAR ?c ?df))] =>
      lazymatch name with
      | EFFECTIVE_TAX_RATE_VAR => fail
      | _ => rewrite (dfcol2numpy_other name g c df) by done
      end
  end.

Lemma list2numpy_nonempty (col : list cell) (a : ndarray) :
  list2numpy col = Some a → length col ≠ 0%nat.
Proof. unfold list2numpy. by case_bool_decide. Qed.

Lemma step3_reported_tax (df : DataFrame) (g col col' : list cell)
    (h : Historical) :
  columns df !! EFFECTIVE_TAX_RATE_VAR = Some col →
  numeric_column col' → length col' = length col →
  step3 (set_column SALES_GROWTH g df) = Ok h →
  ∃ e', step3 (set_column SALES_GROWTH g
                 (set_column EFFECTIVE_TAX_RATE_VAR col' df))
        = Ok (set_reported_tax e' h)
        ∧ length (data e') = length (data (effective_tax_rate_arr h)).
Proof.
  intros Hcol [xs' Hxs'] Hlen H. unfold step3 in H. inv_binds H.
  injection H as <-.
  match goal with
  | Hp : percent _ = Ok _ |- _ =>
      pose proof Hp as Hp'; apply percent_Ok in Hp' as (e & He & ->)
  end.
  rewrite dfcol2numpy_set_column_ne in He by done.
  change (is_blank EFFECTIVE_TAX_RATE_VAR) with false in He.
  cbv iota in He. case_bool_decide as Hn; [discriminate He|].
  rewrite Hcol in He. simpl in He.
  pose proof (list2numpy_nonempty _ _ He) as Hne.
  apply list2numpy_Some in He as (xs & Hxs & -> & Hlx).
  assert (Hnew : list2numpy col' = Some (array1 xs')).
  { unfold list2numpy. rewrite Hxs'. case_bool_decide as H0; [lia|done]. }
  exists (scale (λ v, v / of_Z 100)%num (array1 xs')). split.
  - unfold step3. other_columns. rewrite dfcol2numpy_reported_tax.
    rewrite (bool_decide_eq_false_2 _ Hn), Hnew.
    cbn [percent]. replay. reflexivity.
  - cbn [effective_tax_rate_arr]. rewrite !scale_length. simpl.
    apply length_mapM in Hxs'. lia.
Qed.

(** What the projection produces: everything from STEP 5 on. *)
Definition projection (r : Run)
    : Margins * Drivers * Forecast * ndarray * Valuation * list Decision :=
  (margins r, drivers r, forecast r, fcf_forecast_arr r, valuation r,
   decisions r).

Lemma step5_reported_tax (df : DataFrame) (g col' : list cell)
    (e' : ndarray) (h : Historical) :
  step5 (set_column SALES_GROWTH g (set_column EFFECTIVE_TAX_RATE_VAR col' df))
    (set_reported_tax e' h)
  = step5 (set_column SALES_GROWTH g df) h.
Proof. unfold step5. other_columns. reflexivity. Qed.

Lemma run_reported_tax (cfg : Config) (price : num) (df : DataFrame)
    (col col' : list cell) (r : Run) :
  columns df !! EFFECTIVE_TAX_RATE_VAR = Some col →
  numeric_column col' → length col' = length col →
  run cfg price df = Ok r →
  ∃ r', run cfg price (set_column EFFECTIVE_TAX_RATE_VAR col' df) = Ok r'
        ∧ projection r' = projection r.
Proof.
  intros Hcol Hnum Hlen H. unfold run in H. inv_binds H. injection H as <-.
  match goal with
  | H2 : step2 _ = Ok _ |- _ => apply step2_Ok in H2 as (s & g & Hs & Hg & ->)
  end.
  match goal with
  | H3 : step3 _ = Ok ?h |- _ =>
      destruct (step3_reported_tax _ _ _ _ _ Hcol Hnum Hlen H3) as (e' & H3' & He');
      rename h into hist
  end.
  match goal with
  | H4 : step4 _ = Ok ?c |- _ =>
      destruct (step4_reported_tax _ _ _ He' H4) as (b & H4');
      rename c into chk
  end.
  eexists. split.
  - unfold run, step2. cbn [set_column columns].
    rewrite lookup_insert_ne by done. rewrite Hs, Hg. cbn [mbind result_bind].
    change (set_column SALES_GROWTH g
              {| nrows := nrows df;
                 columns := <[EFFECTIVE_TAX_RATE_VAR:=col']> (columns df) |})
      with (set_column SALES_GROWTH g
              (set_column EFFECTIVE_TAX_RATE_VAR col' df)).
    rewrite H3'. cbn [mbind result_bind].
    rewrite H4'. cbn [mbind result_bind].
    rewrite step5_reported_tax. replay.
    match goal with
    | |- context [step6 cfg (set_reported_tax e' hist) (set_tax_check b chk) ?m] =>
        change (step6 cfg (set_reported_tax e' hist) (set_tax_check b chk) m)
          with (step6 cfg hist chk m)
    end.
    replay.
    match goal with
    | |- context [step7 (set_reported_tax e' hist) ?d] =>
        change (step7 (set_reported_tax e' hist) d) with (step7 hist d)
    end.
    replay.
    match goal with
    | |- context [step9 cfg (set_reported_tax e' hist) ?f] =>
        change (step9 cfg (set_reported_tax e' hist) f) with (step9 cfg hist f)
    end.
    replay. reflexivity.
  - reflexivity.
Qed.

(** *** Reported lines that are only compared

    The reported gross profit and operating expense are read by STEP 4
    alone: each is compared with its recomputed series, and both enter the
    recomputed operating income, which is itself only compared.  *)

(** The historical arrays with other reported gross profit and operating
    expense. *)
Definition set_compared (gp opex : option ndarray) (h : Historical)
    : Historical :=
  {| sales_arr := sales_arr h;
     sales_growth_arr := sales_growth_arr h;
     cogs_arr := cogs_arr h;
     gp_arr := gp;
     other_oper_inc_arr := other_oper_inc_arr h;
     other_oper_exp_arr := other_oper_exp_arr h;
     sga_exp_arr := sga_exp_arr h;
     rd_exp_arr := rd_exp_arr h;
     oper_exp_arr := opex;
     oper_inc_arr := oper_inc_arr h;
     pretax_inc_arr := pretax_inc_arr h;
     tax_exp_arr := tax_exp_arr h;
     effective_tax_rate_arr := effective_tax_rate_arr h;
     capital_expenditure_arr := capital_expenditure_arr h;
     ebitda_arr := ebitda_arr h;
     ebita_arr := ebita_arr h;
     depreciation_arr := depreciation_arr h;
     amortization_arr := amortization_arr h;
     total_current_assets_arr := total_current_assets_arr h;
     total_current_liabilities_arr := total_current_liabilities_arr h;
     working_capital_arr := working_capital_arr h;
     st_debt_arr := st_debt_arr h;
     stlt_debt_arr := stlt_debt_arr h;
     lt_debt_arr := lt_debt_arr h;
     total_debt_arr := total_debt_arr h;
     preferred_equity_arr := preferred_equity_arr h;
     minority_interest_arr := minority_interest_arr h;
     cash_and_equivalents_arr := cash_and_equivalents_arr h;
     shares_out_arr := shares_out_arr h |}.

(** Two arrays of the same shape and size. *)
Definition same_size (a b : ndarray) : Prop :=
  shape a = shape b ∧ length (data a) = length (data b).

Lemma allclose_same_size (x x' y y' : ndarray) (b : bool) :
  length (data x') = length (data x) → length (data y') = length (data y) →
  allclose tol tol (Some x) (Some y) = Ok b →
  ∃ b', allclose tol tol (Some x') (Some y') = Ok b'.
Proof.
  unfold allclose. intros Hx Hy. rewrite Hx, Hy.
  case_bool_decide; [eauto|].
  destruct (data x) as [|u [|u2 t]], (data x') as [|u' [|u2' t']];
    simpl in Hx; try discriminate Hx;
    destruct (data y) as [|w [|w2 s]], (data y') as [|w' [|w2' s']];
    simpl in Hy; try discriminate Hy; intros Hok; try discriminate Hok;
    eauto.
Qed.

Lemma arith_dispatch (a b : ndarray) (op : string) :
  shape a = shape b → lower op ∈ OP_SET →
  arith (Some a) (Some b) op = Ok (Some (ufunc2 (op_fun (lower op)) a b)).
Proof.
  intros Hs Hop. unfold arith. cbn [operand].
  by rewrite (array_arithmetic_dispatch a b op Hs Hop).
Qed.

Lemma step4_compared (h : Historical) (c : Checks) (gp0 opex0 gp' opex' : ndarray) :
  gp_arr h = Some gp0 → oper_exp_arr h = Some opex0 →
  same_size gp' gp0 → same_size opex' opex0 →
  step4 h = Ok c →
  ∃ c', step4 (set_compared (Some gp') (Some opex') h) = Ok c'
        ∧ calculated_effective_tax_rate_arr c'
          = calculated_effective_tax_rate_arr c.
Proof.
  intros Hgp Hopex [Hgs Hgl] [Hos Hol] H.
  unfold step4 in H. rewrite Hgp, Hopex in H. inv_binds H. injection H as <-.
  unfold step4.
  cbn [set_compared sales_arr cogs_arr gp_arr sga_exp_arr rd_exp_arr
       other_oper_exp_arr oper_exp_arr other_oper_inc_arr oper_inc_arr
       tax_exp_arr pretax_inc_arr effective_tax_rate_arr ebitda_arr ebita_arr
       depreciation_arr].
  (* the operating income recomputed from the reported lines *)
  match goal with
  | H7 : arith (Some gp0) ?ile "add" ≫= check = Ok ?coi |- _ =>
      pose proof H7 as H7';
      apply arith_check_Ok in H7' as (x & y & [= <-] & -> & Hxy & Hcoi)
  end.
  match goal with
  | H6 : arith ?oi (Some opex0) "subtract" = Ok (Some y) |- _ =>
      pose proof H6 as H6';
      apply arith_Ok in H6' as (o & z & Ho & [= <-] & Hoz & Hy)
  end.
  rewrite Ho in *.
  assert (Hile : arith (Some o) (Some opex') "subtract"
                 = Ok (Some (ufunc2 nsub o opex'))).
  { apply (arith_dispatch o opex' "subtract"); [congruence|].
    apply (bool_decide_unpack _). by vm_compute. }
  assert (Hcoi' : arith (Some gp') (Some (ufunc2 nsub o opex')) "add"
                  = Ok (Some (ufunc2 nadd gp' (ufunc2 nsub o opex')))).
  { apply (arith_dispatch gp' (ufunc2 nsub o opex') "add").
    - cbn [shape ufunc2]. rewrite Hgs, Hxy, Hy. reflexivity.
    - apply (bool_decide_unpack _). by vm_compute. }
  repeat match goal with
  | Ha : allclose _ _ (Some gp0) (Some ?calc) = Ok _ |- _ =>
      destruct (allclose_same_size gp0 gp' calc calc _ Hgl eq_refl Ha) as [? ?];
      clear Ha
  | Ha : allclose _ _ (Some opex0) (Some ?calc) = Ok _ |- _ =>
      destruct (allclose_same_size opex0 opex' calc calc _ Hol eq_refl Ha) as [? ?];
      clear Ha
  end.
  subst.
  destruct (oper_inc_arr h) as [oi|] eqn:Hoi; [| done].
  assert (Hlen : length (data (ufunc2 nadd gp' (ufunc2 nsub o opex')))
                 = length (data (ufunc2 (op_fun (lower "add")) gp0
                     (ufunc2 (op_fun (lower "subtract")) o opex0)))).
  { cbn [data ufunc2]. rewrite !length_zip_with. lia. }
  match goal with
  | Ha : allclose _ _ (Some oi) (Some ?coi) = Ok _ |- _ =>
      destruct (allclose_same_size oi oi coi _ _ eq_refl Hlen Ha) as [? ?]
  end.
  eexists. split.
  - replay. cbn [check mbind result_bind]. replay. reflexivity.
  - reflexivity.
Qed.

Lemma dfcol2numpy_replaced (name other : string) (g col' : list cell)
    (df : DataFrame) :
  name ≠ other →
  dfcol2numpy name (set_column SALES_GROWTH g (set_column other col' df))
  = dfcol2numpy name (set_column SALES_GROWTH g df).
Proof.
  intros Hne. unfold dfcol2numpy. rewrite !frame_empty_set_column. simpl.
  destruct (decide (name = SALES_GROWTH)) as [->|Hsg].
  - by rewrite !lookup_insert_eq.
  - by rewrite !lookup_insert_ne.
Qed.

Lemma dfcol2numpy_replacement (other : string) (g col : list cell)
    (df : DataFrame) :
  other ≠ SALES_GROWTH → is_blank other = false → nrows df ≠ 0%nat →
  dfcol2numpy other (set_column SALES_GROWTH g (set_column other col df))
  = list2numpy col.
Proof.
  intros Hne Hb Hn. rewrite dfcol2numpy_set_column_ne by done.
  rewrite Hb. cbn [set_column nrows columns].
  rewrite (bool_decide_eq_false_2 _ Hn). by rewrite lookup_insert_eq.
Qed.

Ltac unreplaced other :=
  repeat match goal with
  | |- context [dfcol2numpy ?name
                  (set_column SALES_GROWTH ?g (set_column other ?c ?df))] =>
      lazymatch name with
      | other => fail
      | _ => rewrite (dfcol2numpy_replaced name other g c df) by done
      end
  end.

Lemma step3_compared (df : DataFrame) (g col' : list cell) (name : string)
    (h : Historical) :
  name = GROSS_PROFIT_VAR ∨ name = OPER_EXP_VAR →
  step3 (set_column SALES_GROWTH g df) = Ok h →
  let frame := set_column SALES_GROWTH g (set_column name col' df) in
  step3 frame
  = Ok (set_compared (dfcol2numpy GROSS_PROFIT_VAR frame)
          (dfcol2numpy OPER_EXP_VAR frame) h).
Proof.
  intros Hname H frame. subst frame.
  unfold step3 in H. inv_binds H. injection H as <-.
  unfold step3. cbn [set_compared].
  destruct Hname as [-> | ->].
  - unreplaced GROSS_PROFIT_VAR. replay. reflexivity.
  - unreplaced OPER_EXP_VAR. replay. reflexivity.
Qed.

Lemma step4_reads (h : Historical) (c : Checks) :
  step4 h = Ok c →
  ∃ gp0 opex0, gp_arr h = Some gp0 ∧ oper_exp_arr h = Some opex0.
Proof.
  intros H. unfold step4 in H. inv_binds H.
  destruct (gp_arr h) as [gp0|]; [| by destruct (Some _)].
  destruct (oper_exp_arr h) as [opex0|]; [eauto|].
  repeat match goal with
  | Ha : allclose _ _ None _ = Ok _ |- _ => discriminate Ha
  end.
Qed.

Lemma step5_compared (df : DataFrame) (g col' : list cell) (name : string)
    (gp opex : option ndarray) (h : Historical) :
  name = GROSS_PROFIT_VAR ∨ name = OPER_EXP_VAR →
  step5 (set_column SALES_GROWTH g (set_column name col' df))
    (set_compared gp opex h)
  = step5 (set_column SALES_GROWTH g df) h.
Proof.
  intros [-> | ->]; unfold step5.
  - unreplaced GROSS_PROFIT_VAR. reflexivity.
  - unreplaced OPER_EXP_VAR. reflexivity.
Qed.

Lemma step6_compared (cfg : Config) (gp opex : option ndarray)
    (h : Historical) (c c' : Checks) (m : Margins) :
  calculated_effective_tax_rate_arr c' = calculated_effective_tax_rate_arr c →
  step6 cfg (set_compared gp opex h) c' m = step6 cfg h c m.
Proof.
  intros Hc. unfold step6. cbn [set_compared sales_growth_arr].
  by rewrite Hc.
Qed.

Lemma same_size_columns (col col' : list cell) (a a' : ndarray) :
  length col' = length col →
  list2numpy col = Some a → list2numpy col' = Some a' → same_size a' a.
Proof.
  intros Hlen Ha Ha'.
  apply list2numpy_Some in Ha as (xs & _ & -> & Hx).
  apply list2numpy_Some in Ha' as (xs' & _ & -> & Hx').
  split; simpl; [f_equal|]; lia.
Qed.

Lemma same_size_refl (a : ndarray) : same_size a a.
Proof. by split. Qed.

Lemma numeric_list2numpy (col : list cell) :
  numeric_column col → length col ≠ 0%nat → ∃ a, list2numpy col = Some a.
Proof.
  intros [xs Hxs] Hne. unfold list2numpy.
  rewrite (bool_decide_eq_false_2 _ Hne), Hxs. eauto.
Qed.

Lemma run_compared_column (cfg : Config) (price : num) (df : DataFrame)
    (name : string) (col col' : list cell) (r : Run) :
  name = GROSS_PROFIT_VAR ∨ name = OPER_EXP_VAR →
  columns df !! name = Some col →
  numeric_column col' → length col' = length col →
  run cfg price df = Ok r →
  ∃ r', run cfg price (set_column name col' df) = Ok r'
        ∧ projection r' = projection r.
Proof.
  intros Hname Hcol Hnum Hlen H. unfold run in H. inv_binds H.
  injection H as <-.
  match goal with
  | H2 : step2 _ = Ok _ |- _ => apply step2_Ok in H2 as (s & g & Hs & Hg & ->)
  end.
  match goal with
  | Ha : step3 _ = Ok ?h, Hb : step4 ?h = Ok ?c |- _ =>
      rename h into hist; rename c into chk;
      rename Ha into H3; rename Hb into H4
  end.
  destruct (step4_reads _ _ H4) as (gp0 & opex0 & Hgp0 & Hopex0).
  pose proof (step3_compared df g col' name hist Hname H3) as H3'.
  cbv zeta in H3'.
  assert (Hrows : nrows df ≠ 0%nat).
  { apply step3_Ok in H3 as (Hsales & _). intros E.
    unfold dfcol2numpy in Hsales. rewrite frame_empty_set_column in Hsales.
    rewrite (bool_decide_eq_true_2 _ E) in Hsales.
    by destruct (is_blank SALES_VAR). }
  assert (Hold : ∀ n, n ≠ SALES_GROWTH → is_blank n = false →
    dfcol2numpy n (set_column SALES_GROWTH g df) = columns df !! n ≫= list2numpy).
  { intros n Hn Hb. rewrite dfcol2numpy_set_column_ne by done.
    by rewrite Hb, (bool_decide_eq_false_2 _ Hrows). }
  assert (Hfields : gp_arr hist
                    = dfcol2numpy GROSS_PROFIT_VAR (set_column SALES_GROWTH g df)
                    ∧ oper_exp_arr hist
                      = dfcol2numpy OPER_EXP_VAR (set_column SALES_GROWTH g df)).
  { apply step3_Ok in H3. tauto. }
  destruct Hfields as [Fgp Fopex].
  assert (Hnew : ∃ gp' opex',
    dfcol2numpy GROSS_PROFIT_VAR
      (set_column SALES_GROWTH g (set_column name col' df)) = Some gp'
    ∧ dfcol2numpy OPER_EXP_VAR
        (set_column SALES_GROWTH g (set_column name col' df)) = Some opex'
    ∧ same_size gp' gp0 ∧ same_size opex' opex0).
  { assert (Hne : length col ≠ 0%nat).
    { destruct Hname as [-> | ->].
      - rewrite Fgp, Hold, Hcol in Hgp0 by done.
        by apply list2numpy_nonempty in Hgp0.
      - rewrite Fopex, Hold, Hcol in Hopex0 by done.
        by apply list2numpy_nonempty in Hopex0. }
    destruct (numeric_list2numpy col' Hnum ltac:(lia)) as [a' Ha'].
    destruct Hname as [-> | ->].
    - exists a', opex0.
      rewrite dfcol2numpy_replacement by done.
      rewrite dfcol2numpy_replaced by done.
      rewrite <- Fopex. repeat split; try done; try apply same_size_refl.
      all: rewrite Fgp, Hold, Hcol in Hgp0 by done;
        apply (same_size_columns col col' gp0 a' Hlen Hgp0 Ha').
    - exists gp0, a'.
      rewrite dfcol2numpy_replacement by done.
      rewrite dfcol2numpy_replaced by done.
      rewrite <- Fgp. repeat split; try done; try apply same_size_refl.
      all: rewrite Fopex, Hold, Hcol in Hopex0 by done;
        apply (same_size_columns col col' opex0 a' Hlen Hopex0 Ha'). }
  destruct Hnew as (gp' & opex' & Hgp' & Hopex' & Sgp & Sopex).
  rewrite Hgp', Hopex' in H3'.
  destruct (step4_compared hist chk gp0 opex0 gp' opex' Hgp0 Hopex0 Sgp Sopex H4)
    as (chk' & H4' & Htax).
  eexists. split.
  - unfold run, step2. cbn [set_column columns].
    rewrite lookup_insert_ne by (destruct Hname as [-> | ->]; done).
    rewrite Hs, Hg. cbn [mbind result_bind].
    change (set_column SALES_GROWTH g
              {| nrows := nrows df; columns := <[name:=col']> (columns df) |})
      with (set_column SALES_GROWTH g (set_column name col' df)).
    rewrite H3'. cbn [mbind result_bind].
    rewrite H4'. cbn [mbind result_bind].
    rewrite (step5_compared df g col' name _ _ hist Hname). replay.
    rewrite (step6_compared cfg _ _ hist chk chk' _ Htax). replay.
    match goal with
    | |- context [step7 (set_compared ?a ?b hist) ?d] =>
        change (step7 (set_compared a b hist) d) with (step7 hist d)
    end.
    replay.
    match goal with
    | |- context [step9 cfg (set_compared ?a ?b hist) ?f] =>
        change (step9 cfg (set_compared a b hist) f) with (step9 cfg hist f)
    end.
    replay. reflexivity.
  - reflexivity.
Qed.

(** C5, as the code has it.  In a run that reaches the projection, the
    extended effective-tax-rate driver is built from the recomputed series
    [tax_expense / pretax_income] alone: that series is the history being
    extended, and its last element is both the start and the end value;
    NOPAT is EBIT times one minus this driver.  Replacing the reported
    EFF_TAX_RATE column by any other column of numbers of the same length
    leaves the whole projection unchanged, and so does replacing the
    reported GROSS_PROFIT or IS_OPERATING_EXPN column: the recomputed
    operating income reads the reported gross profit and operating
    expense, but it is only compared.  Of the reconciliation lines, the
    reported operating income and the reported depreciation are the ones
    carried into the projection: amortization, and with it the
    amortization margin, reads the reported operating income, and the
    depreciation-to-capex ratio reads the reported depreciation. *)
Theorem effective_tax_rate_asymmetry (cfg : Config) (price : num)
    (df : DataFrame) (r : Run) :
  run cfg price df = Ok r →
  let h := historical r in
  let c := checks r in
  let m := margins r in
  let d := drivers r in
  let f := forecast r in
  (∃ tax pretax last,
      tax_exp_arr h = Some tax ∧ pretax_inc_arr h = Some pretax
      ∧ calculated_effective_tax_rate_arr c = ufunc2 safe_div tax pretax
      ∧ last_item (data (calculated_effective_tax_rate_arr c)) = Ok last
      ∧ extend_array (PyArr (calculated_effective_tax_rate_arr c))
          (N_FORECAST_YEARS cfg) None None (Some last) (Some last)
        = Ok (effective_tax_rate_arr_extended d)
      ∧ nopat_forecast_arr f
        = ufunc2 nmul (ebit_forecast_arr f)
            (scale (λ t, one - t)%num (effective_tax_rate_arr_extended d)))
  ∧ (∀ name col col',
       name = EFFECTIVE_TAX_RATE_VAR ∨ name = GROSS_PROFIT_VAR
         ∨ name = OPER_EXP_VAR →
       columns df !! name = Some col →
       numeric_column col' → length col' = length col →
       ∃ r', run cfg price (set_column name col' df) = Ok r'
             ∧ projection r' = projection r)
  ∧ (∃ gp oexp oinc,
       gp_arr h = Some gp ∧ oper_exp_arr h = Some oexp
       ∧ other_oper_inc_arr h = Some oinc
       ∧ calculated_oper_inc_arr c = ufunc2 nadd gp (ufunc2 nsub oinc oexp))
  ∧ (∃ ebita oi,
       ebita_arr h = Some ebita ∧ oper_inc_arr h = Some oi
       ∧ amortization_arr h = Some (ufunc2 nsub ebita oi)
       ∧ amortization_margin_arr m
         = ufunc2 safe_div (ufunc2 nsub ebita oi) (sales_arr h))
  ∧ (∃ dep,
       depreciation_arr h = Some dep
       ∧ depr_capex_arr m
         = ufunc2 safe_div dep (ufunc2 nmul (capex_margin_arr m) (sales_arr h))).
Proof.
  intros H h c m d f.
  split; [| split;
    [intros name col col' [-> | Hname] Hc Hn Hl;
       [by apply (run_reported_tax _ _ _ col)
       | by apply (run_compared_column _ _ _ name col)] |]].
  all: subst h c m d f; unfold run in H; inv_binds H; injection H as <-;
    cbn [historical checks margins drivers forecast].
  - (* the driver and NOPAT *)
    repeat match goal with
    | H : step4 _ = Ok _ |- _ => unfold step4 in H; inv_binds H; injection H as <-
    | H : step6 _ _ _ _ = Ok _ |- _ => apply step6_Ok in H as (_ & _ & _ & H)
    | H : step7 _ _ = Ok _ |- _ => unfold step7 in H; inv_binds H; injection H as <-
    end.
    cbn [calculated_effective_tax_rate_arr nopat_forecast_arr ebit_forecast_arr] in *.
    match goal with
    | H : extend_effective_tax_rate _ _ = Ok _ |- _ =>
        unfold extend_effective_tax_rate in H; inv_binds H
    end.
    match goal with
    | H1 : item_last (Some ?x) = Ok ?a, H2 : item_last (Some ?x) = Ok ?b |- _ =>
        assert (a = b) as -> by congruence
    end.
    match goal with
    | H : arith (tax_exp_arr _) _ _ ≫= check = Ok _ |- _ =>
        apply arith_check_Ok in H as (tax & pretax & Ht & Hp & _ & ->)
    end.
    match goal with
    | H : arith _ (Some (scale _ _)) _ ≫= check = Ok _ |- _ =>
        apply arith_check_Ok in H as (? & ? & [= <-] & [= <-] & _ & ->)
    end.
    eexists tax, pretax, _. repeat split; try done.
  - (* the other reconciliation lines *)
    repeat match goal with
    | H : step2 _ = Ok _ |- _ => clear H
    | H : step3 _ = Ok _ |- _ => unfold step3 in H; inv_binds H; injection H as <-
    | H : step4 _ = Ok _ |- _ => unfold step4 in H; inv_binds H; injection H as <-
    | H : step5 _ _ = Ok _ |- _ => unfold step5 in H; inv_binds H; injection H as <-
    end.
    cbn [gp_arr oper_exp_arr other_oper_inc_arr calculated_oper_inc_arr
         ebita_arr oper_inc_arr amortization_arr amortization_margin_arr
         depreciation_arr depr_capex_arr capex_margin_arr sales_arr] in *.
    name_operands.
    repeat match goal with
    | H : arith _ _ _ ≫= check = Ok _ |- _ =>
        apply arith_check_Ok in H as (? & ? & ? & ? & _ & ->)
    | H : arith _ _ _ = Ok (Some _) |- _ =>
        apply arith_Ok in H as (? & ? & ? & ? & _ & ->)
    end.
    simplify_eq.
    split; [| split].
    + eexists _, _, _. repeat split; try done.
    + eexists _, _. repeat split; try done.
    + eexists _. repeat split; try done.
Qed.

(** The scenario with reported lines that do not reconcile. *)
Definition mismatch_frame : DataFrame :=
  set_column GROSS_PROFIT_VAR (constant_column 1)
    (set_column OPER_EXP_VAR (constant_column 2)
       (set_column OPER_INC_VAR (constant_column 3)
          (set_column DEPRECIATION_EXPENSE_VAR (constant_column 4)
             (set_column EFFECTIVE_TAX_RATE_VAR (constant_column 50)
                scenario_frame)))).

Lemma effective_tax_rate_asymmetry_witness :
  ∃ r r1 r2 r3,
    run scenario_config (of_Q 30) mismatch_frame = Ok r
    ∧ check_gross_margin_arr (checks r) = false
    ∧ check_oper_exp_arr (checks r) = false
    ∧ check_oper_inc_arr (checks r) = false
    ∧ check_effective_tax_rate_arr (checks r) = false
    ∧ check_depreciation_arr (checks r) = false
    ∧ run scenario_config (of_Q 30)
        (set_column EFFECTIVE_TAX_RATE_VAR (constant_column 25) mismatch_frame)
      = Ok r1
    ∧ projection r1 = projection r
    ∧ run scenario_config (of_Q 30)
        (set_column GROSS_PROFIT_VAR (constant_column 7) mismatch_frame)
      = Ok r2
    ∧ projection r2 = projection r
    ∧ run scenario_config (of_Q 30)
        (set_column OPER_EXP_VAR (constant_column 7) mismatch_frame)
      = Ok r3
    ∧ projection r3 = projection r.
Proof.
  destruct (run scenario_config (of_Q 30) mismatch_frame) as [r| |e] eqn:E;
    [| by vm_compute in E ..].
  destruct (effective_tax_rate_asymmetry _ _ _ _ E) as (_ & Hsame & _).
  destruct (Hsame EFFECTIVE_TAX_RATE_VAR (constant_column 50)
              (constant_column 25))
    as (r1 & Hr1 & Hproj1);
    [by left | reflexivity | by eexists | reflexivity |].
  destruct (Hsame GROSS_PROFIT_VAR (constant_column 1) (constant_column 7))
    as (r2 & Hr2 & Hproj2);
    [by right; left | reflexivity | by eexists | reflexivity |].
  destruct (Hsame OPER_EXP_VAR (constant_column 2) (constant_column 7))
    as (r3 & Hr3 & Hproj3);
    [by right; right | reflexivity | by eexists | reflexivity |].
  exists r, r1, r2, r3. split; [reflexivity|].
  pose proof E as E'. vm_compute in E'. injection E' as <-.
  repeat split; first [reflexivity | assumption].
Defined.

(** C5 as stated fails for two of the four other reconciliation lines.
    On the scenario, gross profit and operating expense columns that do
    not reconcile make their checks fail and leave the projection as it
    is: the reported series are read, and go no further than STEP 4.  A
    different operating income or depreciation column does change the
    amortization margin or the depreciation-to-capex ratio. *)
Lemma effective_tax_rate_asymmetry_counterexample :
  ∃ r r1 r2 r3,
    run scenario_config (of_Q 30) scenario_frame = Ok r
    ∧ run scenario_config (of_Q 30)
        (set_column GROSS_PROFIT_VAR (constant_column 1)
           (set_column OPER_EXP_VAR (constant_column 2) scenario_frame))
      = Ok r1
    ∧ gp_arr (historical r1) = Some (array1 (replicate 5 (of_Q 1)))
    ∧ oper_exp_arr (historical r1) = Some (array1 (replicate 5 (of_Q 2)))
    ∧ check_gross_margin_arr (checks r1) = false
    ∧ check_oper_exp_arr (checks r1) = false
    ∧ check_oper_inc_arr (checks r1) = false
    ∧ projection r1 = projection r
    ∧ run scenario_config (of_Q 30)
        (set_column OPER_INC_VAR (constant_column 3) scenario_frame) = Ok r2
    ∧ data (amortization_margin_arr (margins r)) !! 0%nat
      = Some (of_Q (1 # 100))
    ∧ data (amortization_margin_arr (margins r2)) !! 0%nat
      = Some (of_Q (18 # 100))
    ∧ run scenario_config (of_Q 30)
        (set_column DEPRECIATION_EXPENSE_VAR (constant_column 4) scenario_frame)
      = Ok r3
    ∧ data (depr_capex_arr (margins r)) !! 1%nat = Some (of_Q 1)
    ∧ data (depr_capex_arr (margins r3)) !! 1%nat = Some (of_Q (10 # 11)).
Proof.
  destruct (run scenario_config (of_Q 30) scenario_frame) as [r| |e] eqn:E;
    [| by vm_compute in E ..].
  destruct (run_compared_column scenario_config (of_Q 30) scenario_frame
              OPER_EXP_VAR (share_of_sales (20 # 100)) (constant_column 2) r)
    as (r0 & E0 & P0);
    [by right | reflexivity | by eexists | reflexivity | exact E |].
  destruct (run_compared_column scenario_config (of_Q 30)
              (set_column OPER_EXP_VAR (constant_column 2) scenario_frame)
              GROSS_PROFIT_VAR (share_of_sales (40 # 100)) (constant_column 1)
              r0)
    as (r1 & E1 & P1);
    [by left | reflexivity | by eexists | reflexivity | exact E0 |].
  destruct (run scenario_config (of_Q 30)
              (set_column OPER_INC_VAR (constant_column 3) scenario_frame))
    as [r2| |e] eqn:E2; [| by vm_compute in E2 ..].
  destruct (run scenario_config (of_Q 30)
              (set_column DEPRECIATION_EXPENSE_VAR (constant_column 4)
                 scenario_frame))
    as [r3| |e] eqn:E3; [| by vm_compute in E3 ..].
  exists r, r1, r2, r3.
  split; [reflexivity|]. split; [exact E1|].
  assert (Hr1 : gp_arr (historical r1) = Some (array1 (replicate 5 (of_Q 1)))
                ∧ oper_exp_arr (historical r1)
                  = Some (array1 (replicate 5 (of_Q 2)))
                ∧ check_gross_margin_arr (checks r1) = false
                ∧ check_oper_exp_arr (checks r1) = false
                ∧ check_oper_inc_arr (checks r1) = false).
  { clear -E1. vm_compute in E1. injection E1 as <-.
    repeat split; apply (bool_decide_unpack _); vm_compute; reflexivity. }
  destruct Hr1 as (? & ? & ? & ? & ?).
  do 5 (split; [assumption|]).
  split; [by rewrite P1, P0|].
  split; [reflexivity|].
  split.
  { clear -E. vm_compute in E. injection E as <-.
    apply (bool_decide_unpack _). vm_compute. reflexivity. }
  split.
  { clear -E2. vm_compute in E2. injection E2 as <-.
    apply (bool_decide_unpack _). vm_compute. reflexivity. }
  split; [reflexivity|].
  split.
  { clear -E. vm_compute in E. injection E as <-.
    apply (bool_decide_unpack _). vm_compute. reflexivity. }
  clear -E3. vm_compute in E3. injection E3 as <-.
  apply (bool_decide_unpack _). vm_compute. reflexivity.
Qed.

(** The reported column must still be there: the script divides what
    [dfcol2numpy] returns for it by 100 without testing it for [None], so
    a frame without the column stops with a TypeError before any check. *)
Example run_without_reported_tax :
  run scenario_config (of_Q 30)
    {| nrows := 5;
       columns := delete EFFECTIVE_TAX_RATE_VAR (columns scenario_frame) |}
  = Raised TypeError.
Proof. by vm_compute. Qed.
